(** * ClosedCaption: a shallow embedding of [src/main.py]

    The presentation side of [CaptionWindow] (caption history, pooled labels,
    colour fade cache, geometry) is modelled in a small state-and-exception
    monad over an explicit window record, so that state mutated before a
    Python exception is raised stays visible, as it does in a Tk callback.
    Python floats are Rocq's primitive binary64 floats.
    [AudioTranscriber.start]/[stop] are modelled over their own record. *)

From Stdlib Require Import ZArith List String Ascii Bool Lia.
From Stdlib Require Import Floats Uint63 QArith Qround Qminmax.
Import ListNotations.
Close Scope Q_scope.
Open Scope string_scope.

(** ** Constants (main.py lines 18-23) *)

Definition SAMPLE_RATE : Z := 16000.
Definition BLOCK_SIZE : Z := 8000.
Definition MAX_HISTORY : nat := 10.

(** ** Python exceptions and results *)

Inductive py_exc := ValueError | OverflowError | IndexError.

Inductive outcome (A : Type) :=
| Ret (a : A)
| Raise (e : py_exc).
Arguments Ret {A} a.
Arguments Raise {A} e.

Definition obind {A B} (m : outcome A) (k : A -> outcome B) : outcome B :=
  match m with Ret a => k a | Raise e => Raise e end.

Notation "x <-? m ;; k" := (obind m (fun x => k))
  (at level 61, m at next level, right associativity).

(** ** Python [int(s, 16)]

    Surrounding whitespace is stripped, then an optional sign, an optional
    [0x]/[0X] prefix (optionally followed by one underscore), then at least
    one hexadecimal digit, single underscores allowed between digits.
    Anything else raises [ValueError]. *)

Definition py_isspace (c : ascii) : bool :=
  let n := nat_of_ascii c in
  ((9 <=? n)%nat && (n <=? 13)%nat) || ((28 <=? n)%nat && (n <=? 32)%nat).

Fixpoint drop_space (cs : list ascii) : list ascii :=
  match cs with
  | c :: rest => if py_isspace c then drop_space rest else cs
  | [] => []
  end.

Definition py_strip (cs : list ascii) : list ascii :=
  rev (drop_space (rev (drop_space cs))).

Definition hexval (c : ascii) : option Z :=
  let n := Z.of_nat (nat_of_ascii c) in
  if (48 <=? n)%Z && (n <=? 57)%Z then Some (n - 48)%Z
  else if (97 <=? n)%Z && (n <=? 102)%Z then Some (n - 87)%Z
  else if (65 <=? n)%Z && (n <=? 70)%Z then Some (n - 55)%Z
  else None.

Fixpoint hex_body (cs : list ascii) (acc : Z) : outcome Z :=
  match cs with
  | [] => Ret acc
  | "_"%char :: d :: rest =>
      match hexval d with
      | Some v => hex_body rest (acc * 16 + v)%Z
      | None => Raise ValueError
      end
  | d :: rest =>
      match hexval d with
      | Some v => hex_body rest (acc * 16 + v)%Z
      | None => Raise ValueError
      end
  end.

Definition hex_digits_nonempty (cs : list ascii) : outcome Z :=
  match cs with
  | d :: rest =>
      match hexval d with
      | Some v => hex_body rest v
      | None => Raise ValueError
      end
  | [] => Raise ValueError
  end.

Definition drop_0x (cs : list ascii) : list ascii :=
  match cs with
  | "0"%char :: x :: rest =>
      if (x =? "x")%char || (x =? "X")%char then
        match rest with "_"%char :: r => r | _ => rest end
      else cs
  | _ => cs
  end.

Definition py_int16 (s : string) : outcome Z :=
  let cs := py_strip (list_ascii_of_string s) in
  match cs with
  | "-"%char :: rest => v <-? hex_digits_nonempty (drop_0x rest) ;; Ret (- v)%Z
  | "+"%char :: rest => hex_digits_nonempty (drop_0x rest)
  | _ => hex_digits_nonempty (drop_0x cs)
  end.

(** [s[a:b]] for [0 <= a <= b], clamped to the string as Python does. *)
Definition py_slice (s : string) (a b : nat) : string := substring a (b - a) s.

(** [s.startswith(p)] *)
Definition py_startswith (s p : string) : bool := prefix p s.

(** ** Python floats *)

Open Scope float_scope.

(** [float(n)] for an [int] of magnitude below 2^63. *)
Definition py_float (z : Z) : float :=
  if (z <? 0)%Z then - of_uint63 (Uint63.of_Z (- z)) else of_uint63 (Uint63.of_Z z).

(** [max(a, b)]: the first argument unless the second is strictly larger. *)
Definition py_max (a b : float) : float := if a <? b then b else a.

(** [int(x)] for a float: truncation toward zero; [nan] raises [ValueError],
    an infinity raises [OverflowError]. *)
Definition py_int_of_float (x : float) : outcome Z :=
  match Prim2SF x with
  | S754_zero _ => Ret 0%Z
  | S754_infinity _ => Raise OverflowError
  | S754_nan => Raise ValueError
  | S754_finite s m e =>
      let a := if (0 <=? e)%Z then Z.shiftl (Zpos m) e else Z.shiftr (Zpos m) (- e) in
      Ret (if s then (- a)%Z else a)
  end.

Close Scope float_scope.

(** ** Python [f"{n:02x}"]: lower-case hexadecimal, zero padded after the
    sign to a total width of 2. *)

Definition hexchar (d : Z) : ascii :=
  ascii_of_nat (Z.to_nat (if (d <? 10)%Z then 48 + d else 87 + d)).

Fixpoint hex_digits_fuel (fuel : nat) (n : Z) : list ascii :=
  match fuel with
  | O => []
  | S f =>
      if (n <? 16)%Z then [hexchar n]
      else hex_digits_fuel f (n / 16) ++ [hexchar (n mod 16)]
  end.

(** Digits of [n >= 0]; [log2 n + 1] bits bound the number of digits. *)
Definition hex_digits (n : Z) : list ascii :=
  hex_digits_fuel (S (Z.to_nat (Z.log2 n))) n.

Definition format_02x (n : Z) : string :=
  let sign := if (n <? 0)%Z then ["-"%char] else [] in
  let ds := hex_digits (Z.abs n) in
  let pad := repeat "0"%char (2 - List.length sign - List.length ds) in
  string_of_list_ascii (sign ++ pad ++ ds).

(** ** [CaptionWindow] state *)

Record settings := mkSettings {
  font_family : string;
  font_size : Z;
  text_color : string;
  position : string;
  fullscreen : bool
}.

(** The default settings of [CaptionWindow.__init__] (lines 187-193). *)
Definition default_settings : settings :=
  mkSettings "Helvetica" 24 "#FFFFFF" "floating" false.

(** Only the options the code configures on a [tk.Label] are kept. *)
Record label := mkLabel {
  ltext : string;
  lfont : string * Z;
  lfg : string;
  lwrap : Z
}.

(** [tk.Label(..., text="")] before any style is configured. *)
Definition fresh_label : label := mkLabel "" ("TkDefaultFont", 0%Z) "" 0%Z.

Definition label_set_text (t : string) (l : label) : label :=
  mkLabel t (lfont l) (lfg l) (lwrap l).

Definition label_set_style (f : string * Z) (fg : string) (l : label) : label :=
  mkLabel (ltext l) f fg (lwrap l).

Definition label_set_wrapped_style (f : string * Z) (fg : string) (w : Z) (l : label)
  : label :=
  mkLabel (ltext l) f fg w.

(** A [root.geometry("WxH")] or [root.geometry("WxH+X+Y")] request. *)
Record geometry := mkGeometry { gwidth : Z; gheight : Z; gpos : option (Z * Z) }.

(** The Tk root as the code sees it: screen size, the last geometry request,
    the [-fullscreen] attribute, and the width [winfo_width()] reports (the
    width the window was last rendered at; 1 before the first rendering). *)
Record tkroot := mkRoot {
  screen_width : Z;
  screen_height : Z;
  win_width : Z;
  fullscreen_attr : bool;
  root_geometry : geometry
}.

Definition set_geometry (g : geometry) (r : tkroot) : tkroot :=
  mkRoot (screen_width r) (screen_height r) (win_width r) (fullscreen_attr r) g.

Definition set_fullscreen (b : bool) (r : tkroot) : tkroot :=
  mkRoot (screen_width r) (screen_height r) (win_width r) b (root_geometry r).

(** One pass of the Tk event loop rendering the window: a full-screen
    window spans the screen, otherwise it takes the requested width. *)
Definition render (r : tkroot) : tkroot :=
  mkRoot (screen_width r) (screen_height r)
         (if fullscreen_attr r then screen_width r else gwidth (root_geometry r))
         (fullscreen_attr r) (root_geometry r).

Record window := mkWindow {
  settings_of : settings;
  history : list string;
  color_cache : list string;
  history_labels : list label;
  partial_label : label;
  root : tkroot
}.

Definition with_settings (s : settings) (w : window) : window :=
  mkWindow s (history w) (color_cache w) (history_labels w) (partial_label w) (root w).
Definition with_history (h : list string) (w : window) : window :=
  mkWindow (settings_of w) h (color_cache w) (history_labels w) (partial_label w) (root w).
Definition with_color_cache (cc : list string) (w : window) : window :=
  mkWindow (settings_of w) (history w) cc (history_labels w) (partial_label w) (root w).
Definition with_history_labels (ls : list label) (w : window) : window :=
  mkWindow (settings_of w) (history w) (color_cache w) ls (partial_label w) (root w).
Definition with_partial_label (l : label) (w : window) : window :=
  mkWindow (settings_of w) (history w) (color_cache w) (history_labels w) l (root w).
Definition with_root (r : tkroot) (w : window) : window :=
  mkWindow (settings_of w) (history w) (color_cache w) (history_labels w) (partial_label w) r.

(** ** A state-and-exception monad for the methods of [CaptionWindow]:
    mutations made before an exception are kept. *)

Definition M (A : Type) := window -> outcome A * window.

Definition ret {A} (a : A) : M A := fun w => (Ret a, w).
Definition raise {A} (e : py_exc) : M A := fun w => (Raise e, w).
Definition bind {A B} (m : M A) (k : A -> M B) : M B :=
  fun w => match m w with
           | (Ret a, w') => k a w'
           | (Raise e, w') => (Raise e, w')
           end.
Definition get : M window := fun w => (Ret w, w).
Definition modify (f : window -> window) : M unit := fun w => (Ret tt, f w).
Definition lift {A} (o : outcome A) : M A := fun w => (o, w).

Notation "x <- m ;; k" := (bind m (fun x => k))
  (at level 61, m at next level, right associativity).
Notation "m ;;; k" := (bind m (fun _ => k)) (at level 61, right associativity).

(** ** [CaptionWindow._update_color_cache] (lines 245-274) *)

(** [factor = 1.0 - (i / (MAX_HISTORY * 1.5)); factor = max(0.2, factor)] *)
#[warnings="-inexact-float"]
Definition fade_factor (i : nat) : float :=
  py_max 0.2 (1.0 - (py_float (Z.of_nat i) / (py_float (Z.of_nat MAX_HISTORY) * 1.5)))%float.

(** [f"#{nr:02x}{ng:02x}{nb:02x}"] with [nr = int(r * factor)] and so on. *)
Definition fade_entry (r g b : Z) (i : nat) : outcome string :=
  nr <-? py_int_of_float (py_float r * fade_factor i)%float ;;
  ng <-? py_int_of_float (py_float g * fade_factor i)%float ;;
  nb <-? py_int_of_float (py_float b * fade_factor i)%float ;;
  Ret ("#" ++ format_02x nr ++ format_02x ng ++ format_02x nb).

(** [for i in range(MAX_HISTORY): ... self.color_cache.append(...)] *)
Fixpoint fade_loop (r g b : Z) (idx : list nat) : M unit :=
  match idx with
  | [] => ret tt
  | i :: rest =>
      c <- lift (fade_entry r g b i) ;;
      modify (fun w => with_color_cache (color_cache w ++ [c]) w) ;;;
      fade_loop r g b rest
  end.

Definition update_color_cache : M unit :=
  w <- get ;;
  let base_color := text_color (settings_of w) in
  modify (with_color_cache []) ;;;
  if negb (py_startswith base_color "#") then
    modify (with_color_cache (repeat base_color MAX_HISTORY))
  else
    r <- lift (py_int16 (py_slice base_color 1 3)) ;;
    g <- lift (py_int16 (py_slice base_color 3 5)) ;;
    b <- lift (py_int16 (py_slice base_color 5 7)) ;;
    fade_loop r g b (seq 0 MAX_HISTORY).

(** ** [CaptionWindow._apply_visual_settings] (lines 276-321) *)

(** [for i, lbl in enumerate(self.history_labels):
       lbl.config(font=font_spec, fg=self.color_cache[i] (, wraplength=...))];
    the labels configured before an [IndexError] keep their new style. *)
Fixpoint style_labels (i : nat) (cc : list string) (f : string * Z) (wrap : option Z)
  (ls : list label) : list label * option py_exc :=
  match ls with
  | [] => ([], None)
  | l :: rest =>
      match nth_error cc i with
      | None => (l :: rest, Some IndexError)
      | Some fg =>
          let l' := match wrap with
                    | None => label_set_style f fg l
                    | Some wl => label_set_wrapped_style f fg wl l
                    end in
          let (rest', e) := style_labels (S i) cc f wrap rest in
          (l' :: rest', e)
      end
  end.

Definition config_history_labels (f : string * Z) (wrap : option Z) : M unit :=
  w <- get ;;
  let (ls, e) := style_labels 0 (color_cache w) f wrap (history_labels w) in
  modify (with_history_labels ls) ;;;
  match e with None => ret tt | Some ex => raise ex end.

(** The branch on the dock position; returns [window_width]. *)
Definition place_window (s : settings) : M Z :=
  w <- get ;;
  let r := root w in
  let sw := screen_width r in
  if negb (fullscreen s) then
    let sh := screen_height r in
    if String.eqb (position s) "top" then
      modify (with_root (set_geometry (mkGeometry sw 250 (Some (0, 0)%Z)) r)) ;;;
      ret sw
    else if String.eqb (position s) "bottom" then
      let taskbar_offset := 40%Z in
      modify (with_root (set_geometry
                (mkGeometry sw 250 (Some (0, sh - 250 - taskbar_offset)%Z)) r)) ;;;
      ret sw
    else
      let ww := win_width r in
      ret (if (ww <=? 1)%Z then 800%Z else ww)
  else ret sw.

Definition apply_visual_settings : M unit :=
  w <- get ;;
  let s := settings_of w in
  let font_spec := (font_family s, font_size s) in
  let color := text_color s in
  modify (fun w => with_partial_label (label_set_style font_spec color (partial_label w)) w) ;;;
  config_history_labels font_spec None ;;;
  modify (fun w => with_root (set_fullscreen (fullscreen s) (root w)) w) ;;;
  window_width <- place_window s ;;
  let wrap_len := (window_width - 50)%Z in
  modify (fun w => with_partial_label
                     (label_set_wrapped_style font_spec color wrap_len (partial_label w)) w) ;;;
  config_history_labels font_spec (Some wrap_len).

(** [CaptionWindow.on_settings_changed] (lines 326-329) *)
Definition on_settings_changed (new_settings : settings) : M unit :=
  modify (with_settings new_settings) ;;;
  update_color_cache ;;;
  apply_visual_settings.

(** ** [CaptionWindow._process_text_update] (lines 335-355) *)

(** [if i < len(self.history): lbl.config(text=self.history[i]) else: lbl.config(text="")] *)
Fixpoint refresh_labels (i : nat) (h : list string) (ls : list label) : list label :=
  match ls with
  | [] => []
  | lbl :: rest =>
      (if Nat.ltb i (List.length h)
       then label_set_text (nth i h "") lbl
       else label_set_text "" lbl) :: refresh_labels (S i) h rest
  end.

(** [self.history.pop()]: [IndexError] on an empty list. *)
Definition pop_history : M unit :=
  w <- get ;;
  match history w with
  | [] => raise IndexError
  | h => modify (with_history (removelast h))
  end.

Definition process_text_update (text : string) (is_final : bool) : M unit :=
  if is_final then
    modify (fun w => with_history (text :: history w) w) ;;;
    w <- get ;;
    (if Nat.ltb MAX_HISTORY (List.length (history w)) then pop_history else ret tt) ;;;
    modify (fun w => with_history_labels (refresh_labels 0 (history w) (history_labels w)) w) ;;;
    modify (fun w => with_partial_label (label_set_text "" (partial_label w)) w)
  else
    modify (fun w => with_partial_label (label_set_text text (partial_label w)) w).

(** ** [CaptionWindow.__init__] (lines 179-204), on a screen of the given size;
    the transcriber it starts is modelled separately. *)
Definition initial_window (sw sh : Z) : window :=
  mkWindow default_settings (repeat "" MAX_HISTORY) []
           (repeat fresh_label MAX_HISTORY) fresh_label
           (mkRoot sw sh 1 false (mkGeometry 800 200 None)).

Definition init_window (sw sh : Z) : outcome unit * window :=
  (update_color_cache ;;; apply_visual_settings) (initial_window sw sh).

(** ** [AudioTranscriber] lifecycle (lines 32-37, 102-114)

    Only the fields [start]/[stop] touch are kept.  A started worker thread
    is either still running or finished (for instance after a model load
    error).  The blocking calls made are recorded in a trace. *)

Inductive thread_state := ThreadAlive | ThreadFinished.

Record transcriber := mkTranscriber {
  model_path : string;
  running : bool;
  thread : option thread_state
}.

(** Blocking or spawning calls made by a method. *)
Inductive tcall :=
| SpawnThread                   (* threading.Thread(...).start() *)
| JoinThread (timeout : float).  (* self.thread.join(timeout=...) *)

(** [AudioTranscriber.__init__]: [running = False], [thread = None]. *)
Definition new_transcriber (path : string) : transcriber :=
  mkTranscriber path false None.

Definition start (t : transcriber) : outcome unit * transcriber * list tcall :=
  if running t then (Ret tt, t, [])
  else (Ret tt, mkTranscriber (model_path t) true (Some ThreadAlive), [SpawnThread]).

(** [Thread.join] on a started thread never raises; a thread still alive
    after the timeout is left running. *)
#[warnings="-inexact-float"]
Definition stop (t : transcriber) : outcome unit * transcriber * list tcall :=
  let t1 := mkTranscriber (model_path t) false (thread t) in
  match thread t with
  | Some _ => (Ret tt, t1, [JoinThread 2.0%float])
  | None => (Ret tt, t1, [])
  end.

(** ** Pure readings of the window methods, used in the proofs *)

(** The list [fade_loop] appends, and how it ends. *)
Fixpoint fade_list (r g b : Z) (idx : list nat) : outcome unit * list string :=
  match idx with
  | [] => (Ret tt, [])
  | i :: rest =>
      match fade_entry r g b i with
      | Raise e => (Raise e, [])
      | Ret c => let (o, l) := fade_list r g b rest in (o, c :: l)
      end
  end.

(** The colour cache [update_color_cache] leaves for a base colour. *)
Definition color_cache_of (base_color : string) : outcome unit * list string :=
  if negb (py_startswith base_color "#") then (Ret tt, repeat base_color MAX_HISTORY)
  else
    match py_int16 (py_slice base_color 1 3) with
    | Raise e => (Raise e, [])
    | Ret r =>
        match py_int16 (py_slice base_color 3 5) with
        | Raise e => (Raise e, [])
        | Ret g =>
            match py_int16 (py_slice base_color 5 7) with
            | Raise e => (Raise e, [])
            | Ret b => fade_list r g b (seq 0 MAX_HISTORY)
            end
        end
    end.

(** [place_window] as a function of the settings and the root. *)
Definition place_of (s : settings) (r : tkroot) : tkroot * Z :=
  let sw := screen_width r in
  if negb (fullscreen s) then
    if String.eqb (position s) "top" then
      (set_geometry (mkGeometry sw 250 (Some (0, 0)%Z)) r, sw)
    else if String.eqb (position s) "bottom" then
      (set_geometry (mkGeometry sw 250 (Some (0, screen_height r - 250 - 40)%Z)) r, sw)
    else (r, if (win_width r <=? 1)%Z then 800%Z else win_width r)
  else (r, sw).

Definition exc_of (e : option py_exc) : outcome unit :=
  match e with None => Ret tt | Some ex => Raise ex end.

(** [apply_visual_settings] on the parts of the window it writes: history
    labels, partial label and root. *)
Definition visual_of (s : settings) (cc : list string) (ls : list label) (pl : label)
  (r : tkroot) : outcome unit * (list label * label * tkroot) :=
  let f := (font_family s, font_size s) in
  let pl1 := label_set_style f (text_color s) pl in
  let (ls1, e1) := style_labels 0 cc f None ls in
  match e1 with
  | Some ex => (Raise ex, (ls1, pl1, r))
  | None =>
      let (r2, ww) := place_of s (set_fullscreen (fullscreen s) r) in
      let pl2 := label_set_wrapped_style f (text_color s) (ww - 50) pl1 in
      let (ls2, e2) := style_labels 0 cc f (Some (ww - 50)%Z) ls1 in
      (exc_of e2, (ls2, pl2, r2))
  end.

Definition with_visual (v : list label * label * tkroot) (w : window) : window :=
  match v with
  | (ls, pl, r) => mkWindow (settings_of w) (history w) (color_cache w) ls pl r
  end.

(** ** Event sequences as the Tk main loop delivers them *)

(** A transcription event [(text, is_final)] scheduled by [on_text_update]. *)
Definition event := (string * bool)%type.

(** The scheduled [_process_text_update] calls, run in order. *)
Fixpoint run_events (es : list event) : M unit :=
  match es with
  | [] => ret tt
  | (t, f) :: rest => process_text_update t f ;;; run_events rest
  end.

Definition finals (ts : list string) : list event := map (fun t => (t, true)) ts.

(** Texts of the final events of [es], in arrival order. *)
Definition final_texts (es : list event) : list string :=
  map fst (filter snd es).

(** The spec's reading of the rolling history: the last [min k 10] final
    texts, most recent first. *)
Definition spec_last_finals (ts : list string) : list string :=
  firstn MAX_HISTORY (rev ts).

(** ["cap0"; ...; "cap<n-1>"] for [n <= 12]. *)
Definition cap_texts (n : nat) : list string :=
  map (fun i : nat => "cap" ++ match i with
                         | 10%nat => "10" | 11%nat => "11"
                         | _ => String (ascii_of_nat (48 + i)%nat) EmptyString
                         end) (seq 0 n).

(** The scenario of the spec: three partial hypotheses, then one final. *)
Definition hello_events : list event :=
  [("hel", false); ("hell", false); ("hello", false); ("hello world", true)].

(** ** The colour fade as the spec words it, over exact rationals:
    [f(i) = max(0.2, 1 - i/(N*1.5))] and each component [floor(c * f(i))]. *)

Definition spec_factor (i : nat) : Q :=
  Qmax (1 # 5) (1 - inject_Z (Z.of_nat i) / (inject_Z (Z.of_nat MAX_HISTORY) * (3 # 2))).

Definition spec_scale (c : Z) (i : nat) : Z := Qfloor (inject_Z c * spec_factor i).

Definition spec_fade_entry (r g b : Z) (i : nat) : string :=
  "#" ++ format_02x (spec_scale r i) ++ format_02x (spec_scale g i)
      ++ format_02x (spec_scale b i).

Definition outcome_Z_eqb (o : outcome Z) (z : Z) : bool :=
  match o with Ret v => Z.eqb v z | Raise _ => false end.

(** [int(c * factor)] against [floor(c * f(i))] for every component value
    [0 <= c <= 255] and slot [i < MAX_HISTORY]. *)
Definition scale_check : bool :=
  forallb (fun c => forallb (fun i =>
             outcome_Z_eqb (py_int_of_float (py_float c * fade_factor i)%float) (spec_scale c i))
           (seq 0 MAX_HISTORY))
          (map Z.of_nat (seq 0 256)).

Definition all_ascii : list ascii := map ascii_of_nat (seq 0 256).

(** [int(c1 + c2, 16)] for every pair of hexadecimal digits. *)
Definition hex_pair_check : bool :=
  forallb (fun c1 => forallb (fun c2 =>
             match hexval c1, hexval c2 with
             | Some v1, Some v2 =>
                 outcome_Z_eqb (py_int16 (String c1 (String c2 EmptyString))) (v1 * 16 + v2)
             | _, _ => true
             end) all_ascii) all_ascii.

(** [int(c, 16)] for every single hexadecimal digit. *)
Definition hex_single_check : bool :=
  forallb (fun c => match hexval c with
                    | Some v => outcome_Z_eqb (py_int16 (String c EmptyString)) v
                    | None => true
                    end) all_ascii.

(** ["#" c1 c2 c3 c4 c5]: five hexadecimal digits. *)
Definition hex_color5 (c1 c2 c3 c4 c5 : ascii) : string :=
  String "#" (String c1 (String c2 (String c3 (String c4 (String c5 EmptyString))))).

(** ["#" c1 c2 c3 c4 c5 c6]: an RGB hex triple. *)
Definition hex_color (c1 c2 c3 c4 c5 c6 : ascii) : string :=
  String "#" (String c1 (String c2 (String c3 (String c4 (String c5 (String c6 EmptyString)))))).

(** ** [SettingsDialog] (lines 117-172)

    A settings dictionary as the code builds it: string keys, values of the
    three Python types the code stores. *)

Inductive pyval := VStr (s : string) | VInt (z : Z) | VBool (b : bool).

Definition pydict := list (string * pyval).

(** [d.get(k, default)]: the value under the first occurrence of [k]. *)
Fixpoint dict_get (d : pydict) (k : string) (default : pyval) : pyval :=
  match d with
  | [] => default
  | (k', v) :: rest => if String.eqb k k' then v else dict_get rest k default
  end.

(** [self.settings] as a dictionary (the literal of lines 187-193 and the
    one [_apply] builds have these five keys). *)
Definition settings_dict (s : settings) : pydict :=
  [("font_family", VStr (font_family s)); ("font_size", VInt (font_size s));
   ("text_color", VStr (text_color s)); ("position", VStr (position s));
   ("fullscreen", VBool (fullscreen s))].

(** Reading the five keys back with [settings["..."]], as [CaptionWindow]
    does; [None] where it would raise ([KeyError]) or get an ill-typed value. *)
Definition dict_settings (d : pydict) : option settings :=
  match dict_get d "font_family" (VBool false), dict_get d "font_size" (VBool false),
        dict_get d "text_color" (VBool false), dict_get d "position" (VBool false),
        dict_get d "fullscreen" (VStr "") with
  | VStr ff, VInt fs, VStr tc, VStr pos, VBool fsc => Some (mkSettings ff fs tc pos fsc)
  | _, _, _, _, _ => None
  end.

(** The dialog's Tk variables and [self.text_color].  Apart from the font
    size, which the spinbox bound to it checks against its range when it is
    created, a Tk variable is taken to hold the value it was created with
    until the user edits it, and its [get()] returns a value of the
    variable's own type unchanged. *)
Record dialog := mkDialog {
  dfont_family : pyval;
  dfont_size : pyval;
  dtext_color : pyval;
  dposition : pyval;
  dfullscreen : pyval
}.

(** The bounds of [tk.Spinbox(self, from_=8, to=150, textvariable=self.font_size)]. *)
Definition spin_from : Z := 8.
Definition spin_to : Z := 150.

(** Tk's range check on the spinbox value: above [to] gives [to], below
    [from] gives [from], in the order the Tk spinbox tests them. *)
Definition spin_clamp (z : Z) : Z :=
  if (spin_to <? z)%Z then spin_to else if (z <? spin_from)%Z then spin_from else z.

(** C's [isspace] in the C locale. *)
Definition c_isspace (c : ascii) : bool :=
  let n := nat_of_ascii c in ((9 <=? n)%nat && (n <=? 13)%nat) || (n =? 32)%nat.

Fixpoint scan_digits (cs : list ascii) (acc : option Z) : option Z :=
  match cs with
  | c :: rest =>
      let n := Z.of_nat (nat_of_ascii c) in
      if (48 <=? n)%Z && (n <=? 57)%Z
      then scan_digits rest (Some (match acc with Some a => a | None => 0 end * 10 + (n - 48))%Z)
      else acc
  | [] => acc
  end.

(** [sscanf(text, "%lf", ...)] as Tk applies it to the spinbox text, for a
    text holding a decimal integer: leading white space, an optional sign,
    the digits; [None] for a scan failure.  Fractional and exponent parts
    and the hexadecimal, [inf] and [nan] forms of [strtod] are not modelled
    (the font size [CaptionWindow] passes is always a Python [int]). *)
Definition tcl_scan_number (s : string) : option Z :=
  let fix skip cs := match cs with
                     | c :: rest => if c_isspace c then skip rest else cs
                     | [] => [] end in
  match skip (list_ascii_of_string s) with
  | "-"%char :: rest => option_map Z.opp (scan_digits rest None)
  | "+"%char :: rest => scan_digits rest None
  | cs => scan_digits cs None
  end.

(** Creating the spinbox on [self.font_size] replaces the variable's value
    by one in range: a value that does not scan becomes [from_]; [IntVar]
    then reads it back as an [int].  A Python [bool] reaches Tcl as [1] or
    [0]. *)
Definition spinbox_value (v : pyval) : pyval :=
  match v with
  | VInt z => VInt (spin_clamp z)
  | VBool b => VInt (spin_clamp (if b then 1 else 0))
  | VStr s => VInt (match tcl_scan_number s with
                    | Some z => spin_clamp z
                    | None => spin_from
                    end)
  end.

(** [SettingsDialog.__init__] and [_build_ui]: each variable from
    [current_settings.get]; the font size as the spinbox leaves it. *)
Definition dialog_init (current : pydict) : dialog :=
  mkDialog (dict_get current "font_family" (VStr "Helvetica"))
           (spinbox_value (dict_get current "font_size" (VInt 24)))
           (dict_get current "text_color" (VStr "#FFFFFF"))
           (dict_get current "position" (VStr "floating"))
           (dict_get current "fullscreen" (VBool false)).

(** [_choose_color]: [askcolor(...)[1]] is [None] when the picker is
    cancelled; [if color:] also rejects an empty string. *)
Definition choose_color (picked : option string) (dl : dialog) : dialog :=
  match picked with
  | Some c =>
      if String.eqb c "" then dl
      else mkDialog (dfont_family dl) (dfont_size dl) (VStr c) (dposition dl) (dfullscreen dl)
  | None => dl
  end.

(** [_apply]: the dictionary handed to the callback. *)
Definition dialog_apply (dl : dialog) : pydict :=
  [("font_family", dfont_family dl); ("font_size", dfont_size dl);
   ("text_color", dtext_color dl); ("position", dposition dl);
   ("fullscreen", dfullscreen dl)].

(** ** [AudioTranscriber._audio_callback] and [_recognition_loop] (lines 60-100)

    The recogniser is the opaque Vosk engine, passed as a record of its three
    methods over an engine state.  Its JSON results are string dictionaries.
    The two threads are interleaved by a schedule: a frame arriving through
    [_audio_callback], one [audio_queue.get(timeout=1.0)] of the loop, or an
    exception raised inside the [with] block.  The schedule ends when
    [stop()] clears [running].  Model download ([_download_model]) is file
    and network I/O and is not modelled. *)

Definition json := list (string * string).

Fixpoint json_get (j : json) (k : string) : string :=
  match j with
  | [] => ""
  | (k', v) :: rest => if String.eqb k k' then v else json_get rest k
  end.

Record engine (S : Type) := mkEngine {
  accept_waveform : S -> string -> S * bool;   (* rec.AcceptWaveform(data) *)
  result : S -> S * json;                       (* json.loads(rec.Result()) *)
  partial_result : S -> S * json                (* json.loads(rec.PartialResult()) *)
}.
Arguments accept_waveform {S} e s d.
Arguments result {S} e s.
Arguments partial_result {S} e s.

Inductive tick :=
| Arrive (data : string)      (* _audio_callback: audio_queue.put(bytes(indata)) *)
| Poll                        (* one audio_queue.get(timeout=1.0) *)
| StreamFail (msg : string).  (* an exception inside the with block *)

(** State of one run: engine state, queued frames, frames fed to the
    engine, and the [on_text_callback] calls made, all in order. *)
Record loop_state (S : Type) := mkLoop {
  eng : S;
  queue : list string;
  fed : list string;
  emitted : list event
}.
Arguments mkLoop {S} eng queue fed emitted.
Arguments eng {S} l.
Arguments queue {S} l.
Arguments fed {S} l.
Arguments emitted {S} l.

(** [if text: self.on_text_callback(text, is_final)] *)
Definition emit_if (t : string) (f : bool) (es : list event) : list event :=
  if String.eqb t "" then es else es ++ [(t, f)].

(** One frame through the recogniser (lines 86-95). *)
Definition feed_frame {S} (e : engine S) (st : loop_state S) (data : string) (rest : list string)
  : loop_state S :=
  let (s1, accepted) := accept_waveform e (eng st) data in
  if accepted then
    let (s2, j) := result e s1 in
    mkLoop s2 rest (fed st ++ [data]) (emit_if (json_get j "text") true (emitted st))
  else
    let (s2, j) := partial_result e s1 in
    mkLoop s2 rest (fed st ++ [data]) (emit_if (json_get j "partial") false (emitted st)).

(** The [while self.running] loop; after a [StreamFail] the [except]
    branch reports ["Audio Error: ..."] and the thread ends. *)
Fixpoint listen {S} (e : engine S) (st : loop_state S) (ts : list tick) : loop_state S :=
  match ts with
  | [] => st
  | Arrive d :: rest => listen e (mkLoop (eng st) (queue st ++ [d]) (fed st) (emitted st)) rest
  | Poll :: rest =>
      match queue st with
      | [] => listen e st rest                      (* queue.Empty: continue *)
      | d :: q => listen e (feed_frame e st d q) rest
      end
  | StreamFail msg :: _ =>
      mkLoop (eng st) (queue st) (fed st) (emitted st ++ [("Audio Error: " ++ msg, true)])
  end.

(** The outcome of opening the model and the stream. *)
Inductive startup := ModelLoadError (msg : string) | StreamOpenError (msg : string) | Opened.

(** [_recognition_loop] after [_download_model]: the [on_text_callback]
    calls it makes and the frames it feeds the engine. *)
Definition recognition_loop {S} (e : engine S) (s0 : S) (su : startup) (ts : list tick)
  : loop_state S :=
  match su with
  | ModelLoadError msg => mkLoop s0 [] [] [("Error loading model: " ++ msg, true)]
  | StreamOpenError msg => mkLoop s0 [] [] [("Audio Error: " ++ msg, true)]
  | Opened => listen e (mkLoop s0 [] [] []) ts
  end.

(** Frames delivered by the audio callback before the stream closed. *)
Fixpoint arrivals (ts : list tick) : list string :=
  match ts with
  | [] => []
  | Arrive d :: rest => d :: arrivals rest
  | Poll :: rest => arrivals rest
  | StreamFail _ :: _ => []
  end.

(** ** Auxiliary definitions for the properties below *)

(** A recogniser whose JSON results carry neither a [text] nor a [partial] key. *)
Definition keyless_engine : engine nat :=
  mkEngine nat (fun n d => (S n, Nat.even n)) (fun n => (n, [("result", "x")]))
           (fun n => (n, [("partial_result", "y")])).

(** The options a label is styled with: font, colour, wrap width. *)
Definition style_of (l : label) : string * Z * string * Z :=
  (fst (lfont l), snd (lfont l), lfg l, lwrap l).

(** What a text update leaves alone. *)
Definition same_frame (w w' : window) : Prop :=
  settings_of w' = settings_of w /\ color_cache w' = color_cache w /\ root w' = root w /\
  map style_of (history_labels w') = map style_of (history_labels w) /\
  style_of (partial_label w') = style_of (partial_label w).

(** The colour cache [__init__] computes for the default text colour. *)
Definition init_cache : list string := snd (color_cache_of "#FFFFFF").

(** One label after [lbl.config(font=..., fg=... (, wraplength=...))]. *)
Definition styled_label (f : string * Z) (wr : option Z) (fg : string) (l : label) : label :=
  match wr with
  | None => label_set_style f fg l
  | Some x => label_set_wrapped_style f fg x l
  end.

(** The partial label and every history label wrap at [x]. *)
Definition wrapped_to (x : Z) (w : window) : Prop :=
  lwrap (partial_label w) = x /\ Forall (fun l => lwrap l = x) (history_labels w).

(** [f"{n:02x}"] is two hexadecimal digits worth [n], for every byte [n]. *)
Definition format_parse_check : bool :=
  forallb (fun n =>
    match list_ascii_of_string (format_02x n) with
    | [a; b] =>
        match hexval a, hexval b with
        | Some va, Some vb => Z.eqb (va * 16 + vb) n
        | _, _ => false
        end
    | _ => false
    end) (map Z.of_nat (seq 0 256)).

(** Every faded component of a byte is a byte. *)
Definition scale_range_check : bool :=
  forallb (fun c => forallb (fun i =>
             (0 <=? spec_scale c i)%Z && (spec_scale c i <=? 255)%Z)
           (seq 0 MAX_HISTORY))
          (map Z.of_nat (seq 0 256)).

(** ** Properties *)

Lemma removelast_firstn_pred {A} (l : list A) :
  removelast l = firstn (Nat.pred (List.length l)) l.
Proof.
  induction l as [|x l IH]; [reflexivity|].
  destruct l as [|y l]; [reflexivity|].
  change (removelast (x :: y :: l)) with (x :: removelast (y :: l)).
  rewrite IH. reflexivity.
Qed.

Lemma firstn_app_firstn {A} (n k : nat) (l m : list A) :
  n <= List.length l + k -> firstn n (l ++ firstn k m) = firstn n (l ++ m).
Proof.
  intros H. rewrite !firstn_app, firstn_firstn.
  f_equal. f_equal. lia.
Qed.

Lemma process_partial (t : string) (w : window) :
  process_text_update t false w = (Ret tt, with_partial_label (label_set_text t (partial_label w)) w).
Proof. reflexivity. Qed.

Lemma process_final (t : string) (w : window) :
  List.length (history w) = MAX_HISTORY ->
  process_text_update t true w =
    (Ret tt,
     let h := firstn MAX_HISTORY (t :: history w) in
     with_partial_label (label_set_text "" (partial_label w))
       (with_history_labels (refresh_labels 0 h (history_labels w)) (with_history h w))).
Proof.
  destruct w as [s h cc ls pl r]; cbn [history]. intros Hlen.
  assert (Hr : removelast (t :: h) = firstn MAX_HISTORY (t :: h)).
  { rewrite removelast_firstn_pred. cbn [List.length Nat.pred]. rewrite Hlen. reflexivity. }
  cbv beta iota zeta delta [process_text_update bind modify get pop_history ret with_history].
  cbn [history settings_of color_cache history_labels partial_label root List.length].
  rewrite Hlen. cbn [Nat.ltb MAX_HISTORY Nat.leb].
  cbn [history settings_of color_cache history_labels partial_label root].
  rewrite Hr. reflexivity.
Qed.

Lemma length_firstn_10 (t : string) (h : list string) :
  List.length h = MAX_HISTORY -> List.length (firstn MAX_HISTORY (t :: h)) = MAX_HISTORY.
Proof. intros H. rewrite length_firstn. simpl. rewrite H. reflexivity. Qed.

(** Any event sequence run on a window holding a full history: no exception,
    and the history is the newest finals in front of the old history, cut
    to [MAX_HISTORY]. *)
Lemma run_events_history (es : list event) (w : window) :
  List.length (history w) = MAX_HISTORY ->
  exists w', run_events es w = (Ret tt, w') /\
    history w' = firstn MAX_HISTORY (rev (final_texts es) ++ history w).
Proof.
  revert w. induction es as [|[t f] es IH]; intros w Hlen.
  - exists w. split; [reflexivity|].
    unfold final_texts; cbn [filter map rev app]. rewrite <- Hlen, firstn_all. reflexivity.
  - destruct f.
    + destruct (IH (with_partial_label (label_set_text "" (partial_label w))
         (with_history_labels
            (refresh_labels 0 (firstn MAX_HISTORY (t :: history w)) (history_labels w))
            (with_history (firstn MAX_HISTORY (t :: history w)) w))))
        as [w' [Hrun Hh]].
      { apply length_firstn_10. exact Hlen. }
      exists w'. split.
      * change (run_events ((t, true) :: es) w)
          with (bind (process_text_update t true) (fun _ => run_events es) w).
        unfold bind at 1. rewrite (process_final t w Hlen). exact Hrun.
      * rewrite Hh. cbn [history with_partial_label with_history_labels with_history].
        rewrite firstn_app_firstn by lia.
        unfold final_texts; simpl. rewrite <- app_assoc. reflexivity.
    + destruct (IH (with_partial_label (label_set_text t (partial_label w)) w) Hlen)
        as [w' [Hrun Hh]].
      exists w'. split; [exact Hrun|]. exact Hh.
Qed.

(** *** Record update lemmas *)

Lemma with_color_cache_twice (a b : list string) (w : window) :
  with_color_cache a (with_color_cache b w) = with_color_cache a w.
Proof. destruct w; reflexivity. Qed.

Lemma with_color_cache_same (w : window) : with_color_cache (color_cache w) w = w.
Proof. destruct w; reflexivity. Qed.

(** *** [update_color_cache] only writes the colour cache *)

Lemma fade_loop_spec (r g b : Z) (idx : list nat) (w : window) :
  fade_loop r g b idx w =
    (fst (fade_list r g b idx),
     with_color_cache (color_cache w ++ snd (fade_list r g b idx)) w).
Proof.
  revert w. induction idx as [|i idx IH]; intros w.
  - cbn. rewrite app_nil_r, with_color_cache_same. reflexivity.
  - cbn [fade_loop fade_list]. unfold bind, lift, modify.
    destruct (fade_entry r g b i) as [c|e].
    + rewrite IH. destruct (fade_list r g b idx) as [o l]. cbn.
      rewrite with_color_cache_twice, <- app_assoc. reflexivity.
    + cbn. rewrite app_nil_r, with_color_cache_same. reflexivity.
Qed.

Lemma update_color_cache_spec (w : window) :
  update_color_cache w =
    (fst (color_cache_of (text_color (settings_of w))),
     with_color_cache (snd (color_cache_of (text_color (settings_of w)))) w).
Proof.
  unfold update_color_cache, color_cache_of, bind, get, modify, lift.
  destruct (negb (py_startswith (text_color (settings_of w)) "#")).
  - destruct w; reflexivity.
  - destruct (py_int16 (py_slice (text_color (settings_of w)) 1 3)) as [r|e];
      [|destruct w; reflexivity].
    destruct (py_int16 (py_slice (text_color (settings_of w)) 3 5)) as [g|e];
      [|destruct w; reflexivity].
    destruct (py_int16 (py_slice (text_color (settings_of w)) 5 7)) as [b|e];
      [|destruct w; reflexivity].
    rewrite fade_loop_spec. destruct w; reflexivity.
Qed.

(** *** [apply_visual_settings] only writes labels and root *)

Lemma apply_visual_settings_spec (w : window) :
  apply_visual_settings w =
    (fst (visual_of (settings_of w) (color_cache w) (history_labels w) (partial_label w) (root w)),
     with_visual (snd (visual_of (settings_of w) (color_cache w) (history_labels w)
                                 (partial_label w) (root w))) w).
Proof.
  destruct w as [s h cc ls pl r].
  unfold apply_visual_settings, visual_of, config_history_labels, place_window, place_of,
    bind, get, modify, ret, raise.
  cbn.
  destruct (style_labels 0 cc (font_family s, font_size s) None ls) as [ls1 [ex|]]; cbn;
    [reflexivity|].
  destruct (fullscreen s); cbn;
    [|destruct (String.eqb (position s) "top"); cbn;
      [|destruct (String.eqb (position s) "bottom"); cbn]];
    match goal with
    | |- context [style_labels 0 cc ?f (Some ?x) ls1] =>
        destruct (style_labels 0 cc f (Some x) ls1) as [ls2 [ex2|]]; reflexivity
    end.
Qed.

(** *** Styling labels twice with the same values changes nothing *)

Lemma style_labels_length (i : nat) (cc : list string) (f : string * Z) (wr : option Z)
  (ls : list label) :
  List.length (fst (style_labels i cc f wr ls)) = List.length ls.
Proof.
  revert i. induction ls as [|l ls IH]; intros i; [reflexivity|].
  cbn. destruct (nth_error cc i); [|reflexivity].
  specialize (IH (S i)). destruct (style_labels (S i) cc f wr ls). cbn in *. lia.
Qed.

(** Whether an [IndexError] is raised depends only on how many labels there are. *)
Lemma style_labels_exc (i : nat) (cc : list string) (f : string * Z) (wr wr' : option Z)
  (ls ls' : list label) :
  List.length ls = List.length ls' ->
  snd (style_labels i cc f wr ls) = snd (style_labels i cc f wr' ls').
Proof.
  revert i ls'. induction ls as [|l ls IH]; intros i [|l' ls'] Hlen; try discriminate;
    [reflexivity|].
  cbn. destruct (nth_error cc i); [|reflexivity].
  specialize (IH (S i) ls' ltac:(cbn in Hlen; lia)).
  destruct (style_labels (S i) cc f wr ls), (style_labels (S i) cc f wr' ls'). exact IH.
Qed.

Lemma style_labels_idem (i : nat) (cc : list string) (f : string * Z) (wr : option Z)
  (ls ls' : list label) (e : option py_exc) :
  style_labels i cc f wr ls = (ls', e) -> style_labels i cc f wr ls' = (ls', e).
Proof.
  revert i ls' e. induction ls as [|l ls IH]; intros i ls' e H.
  - cbn in H. inversion H. reflexivity.
  - cbn in H. destruct (nth_error cc i) as [fg|] eqn:Hn.
    + destruct (style_labels (S i) cc f wr ls) as [rest e'] eqn:Hr.
      inversion H; subst. cbn. rewrite Hn, (IH (S i) rest e Hr).
      destruct wr; reflexivity.
    + inversion H; subst. cbn. rewrite Hn. reflexivity.
Qed.

(** The first, unwrapped pass over labels already styled by the wrapped pass. *)
Lemma style_labels_unwrapped_after (i : nat) (cc : list string) (f : string * Z) (x : Z)
  (ls ls' : list label) (e : option py_exc) :
  style_labels i cc f (Some x) ls = (ls', e) -> style_labels i cc f None ls' = (ls', e).
Proof.
  revert i ls' e. induction ls as [|l ls IH]; intros i ls' e H.
  - cbn in H. inversion H. reflexivity.
  - cbn in H. destruct (nth_error cc i) as [fg|] eqn:Hn.
    + destruct (style_labels (S i) cc f (Some x) ls) as [rest e'] eqn:Hr.
      inversion H; subst. cbn. rewrite Hn, (IH (S i) rest e Hr). reflexivity.
    + inversion H; subst. cbn. rewrite Hn. reflexivity.
Qed.

Lemma place_of_idem (s : settings) (r : tkroot) :
  place_of s (set_fullscreen (fullscreen s) (fst (place_of s (set_fullscreen (fullscreen s) r))))
  = place_of s (set_fullscreen (fullscreen s) r).
Proof.
  destruct r as [sw sh ww fa g]. unfold place_of.
  destruct (fullscreen s); cbn; [reflexivity|].
  destruct (String.eqb (position s) "top"); cbn; [reflexivity|].
  destruct (String.eqb (position s) "bottom"); reflexivity.
Qed.

Lemma visual_of_idem (s : settings) (cc : list string) (ls : list label) (pl : label)
  (r : tkroot) ls2 pl2 r2 o :
  visual_of s cc ls pl r = (o, (ls2, pl2, r2)) ->
  visual_of s cc ls2 pl2 r2 = (o, (ls2, pl2, r2)).
Proof.
  unfold visual_of.
  set (f := (font_family s, font_size s)).
  destruct (style_labels 0 cc f None ls) as [ls1 e1] eqn:H1.
  destruct e1 as [ex|].
  - intros H. inversion H; subst.
    rewrite (style_labels_idem _ _ _ _ _ _ _ H1). reflexivity.
  - pose proof (place_of_idem s r) as Hp.
    destruct (place_of s (set_fullscreen (fullscreen s) r)) as [r' ww] eqn:Hpl.
    destruct (style_labels 0 cc f (Some (ww - 50)%Z) ls1) as [ls' e2] eqn:H2.
    intros H. inversion H; subst. cbn in Hp.
    assert (He : e2 = None).
    { change e2 with (snd (ls2, e2)). rewrite <- H2.
      change None with (snd (ls1, @None py_exc)). rewrite <- H1.
      apply style_labels_exc.
      rewrite <- (style_labels_length 0 cc f None ls). rewrite H1. reflexivity. }
    subst e2.
    rewrite (style_labels_unwrapped_after _ _ _ _ _ _ _ H2).
    rewrite Hp. rewrite (style_labels_idem _ _ _ _ _ _ _ H2). reflexivity.
Qed.

Lemma on_settings_changed_spec (s : settings) (w : window) :
  on_settings_changed s w =
    let wa := with_color_cache (snd (color_cache_of (text_color s))) (with_settings s w) in
    match fst (color_cache_of (text_color s)) with
    | Raise e => (Raise e, wa)
    | Ret _ => apply_visual_settings wa
    end.
Proof.
  unfold on_settings_changed, bind, modify at 1.
  rewrite update_color_cache_spec. cbn [settings_of with_settings].
  destruct (fst (color_cache_of (text_color s))); reflexivity.
Qed.

(** ** C7: applying the same settings a second time is idempotent *)

(** C7. Re-applying the same [DisplaySettings] right after a first
    application (screen size and rendered width unchanged in between) gives
    the same outcome and the same window: the same colour fade table, label
    styles (wrap width included) and geometry request. *)
Theorem on_settings_changed_idempotent (s : settings) (w : window) :
  on_settings_changed s (snd (on_settings_changed s w)) = on_settings_changed s w.
Proof.
  rewrite (on_settings_changed_spec s w).
  destruct (color_cache_of (text_color s)) as [o cc] eqn:Hcc. cbn [fst snd].
  destruct o as [u|e].
  - rewrite apply_visual_settings_spec.
    set (wa := with_color_cache cc (with_settings s w)).
    destruct (visual_of (settings_of wa) (color_cache wa) (history_labels wa)
                (partial_label wa) (root wa)) as [ov [[ls2 pl2] r2]] eqn:Hv.
    cbn [fst snd].
    rewrite (on_settings_changed_spec s). rewrite Hcc. cbn [fst snd].
    rewrite apply_visual_settings_spec.
    assert (Hw : with_color_cache cc (with_settings s (with_visual (ls2, pl2, r2) wa))
                 = with_visual (ls2, pl2, r2) wa)
      by (subst wa; destruct w; reflexivity).
    rewrite Hw.
    replace (settings_of (with_visual (ls2, pl2, r2) wa)) with (settings_of wa)
      by (destruct wa; reflexivity).
    replace (color_cache (with_visual (ls2, pl2, r2) wa)) with (color_cache wa)
      by (destruct wa; reflexivity).
    cbn [with_visual history_labels partial_label root].
    rewrite (visual_of_idem _ _ _ _ _ _ _ _ _ Hv). cbn [fst snd].
    f_equal; try (destruct wa; reflexivity).
  - cbn [snd]. rewrite (on_settings_changed_spec s). rewrite Hcc. cbn [fst snd].
    f_equal; try (destruct w; reflexivity).
Qed.

(** *** The window right after [__init__] *)

Lemma apply_visual_settings_history (w : window) :
  history (snd (apply_visual_settings w)) = history w.
Proof.
  rewrite apply_visual_settings_spec. cbn [snd].
  destruct (visual_of _ _ _ _ _) as [o [[ls pl] r]]. reflexivity.
Qed.

Lemma init_window_history (sw sh : Z) :
  history (snd (init_window sw sh)) = repeat "" MAX_HISTORY.
Proof.
  unfold init_window, bind. rewrite update_color_cache_spec.
  destruct (color_cache_of (text_color (settings_of (initial_window sw sh)))) as [[u|e] cc];
    cbn [fst snd].
  - rewrite apply_visual_settings_history. reflexivity.
  - reflexivity.
Qed.

Lemma final_texts_finals (ts : list string) : final_texts (finals ts) = ts.
Proof.
  induction ts as [|t ts IH]; [reflexivity|].
  unfold final_texts in *. cbn. f_equal. exact IH.
Qed.

Lemma length_repeat_history : List.length (repeat "" MAX_HISTORY) = MAX_HISTORY.
Proof. reflexivity. Qed.

(** Final events from the initial window: the newest finals in front of
    the initial empty buffer, cut to [MAX_HISTORY]. *)
Lemma finals_from_init (sw sh : Z) (ts : list string) :
  exists w', run_events (finals ts) (snd (init_window sw sh)) = (Ret tt, w') /\
    history w' = firstn MAX_HISTORY (rev ts ++ repeat "" MAX_HISTORY).
Proof.
  destruct (run_events_history (finals ts) (snd (init_window sw sh))) as [w' [Hrun Hh]].
  { rewrite init_window_history. reflexivity. }
  exists w'. split; [exact Hrun|].
  rewrite Hh, final_texts_finals, init_window_history. reflexivity.
Qed.

(** ** C1: the history after [k] final events *)

(** C1 (as the code does it). After [k] final events processed from the
    window as [__init__] leaves it, the history is the last [min(k, 10)]
    final texts, most recent first, followed by [10 - min(k, 10)] empty
    strings from the initial buffer; entries beyond 10 are evicted oldest
    first. *)
Theorem history_after_finals (sw sh : Z) (ts : list string) :
  exists w', run_events (finals ts) (snd (init_window sw sh)) = (Ret tt, w') /\
    history w' = firstn MAX_HISTORY (rev ts ++ repeat "" MAX_HISTORY).
Proof. exact (finals_from_init sw sh ts). Qed.

(** C1 fails as stated: after a single final event ["a"] the history is
    not [["a"]] (the last [min(1, 10)] finals) but ["a"] padded with nine
    empty strings. *)
Lemma history_after_finals_cex :
  history (snd (run_events (finals ["a"]) (snd (init_window 1920 1080))))
  <> spec_last_finals ["a"].
Proof. vm_compute. discriminate. Qed.

(** ** C2: twelve captions [cap0 .. cap11] *)

(** C2. Processing the 12 final events ["cap0"] .. ["cap11"] in order from
    the initial window leaves exactly the 10 entries ["cap11"] .. ["cap2"]
    ([cap0] and [cap1] evicted). *)
Theorem twelve_captions (sw sh : Z) :
  exists w', run_events (finals (cap_texts 12)) (snd (init_window sw sh)) = (Ret tt, w') /\
    history w' = ["cap11"; "cap10"; "cap9"; "cap8"; "cap7"; "cap6"; "cap5"; "cap4";
                  "cap3"; "cap2"].
Proof.
  destruct (finals_from_init sw sh (cap_texts 12)) as [w' [Hrun Hh]].
  exists w'. split; [exact Hrun|]. rewrite Hh. reflexivity.
Qed.

(** ** C9: the history always holds exactly [MAX_HISTORY] strings *)

(** C9. The window starts with a history of 10 empty strings and, for any
    sequence of partial and final events, processing raises nothing and
    leaves a history of exactly [MAX_HISTORY] = 10 strings. *)
Theorem history_length_invariant (sw sh : Z) (es : list event) :
  history (snd (init_window sw sh)) = repeat "" MAX_HISTORY /\
  exists w', run_events es (snd (init_window sw sh)) = (Ret tt, w') /\
    List.length (history w') = MAX_HISTORY.
Proof.
  split; [apply init_window_history|].
  destruct (run_events_history es (snd (init_window sw sh))) as [w' [Hrun Hh]].
  { rewrite init_window_history. reflexivity. }
  exists w'. split; [exact Hrun|].
  rewrite Hh, length_firstn, length_app, init_window_history, repeat_length.
  unfold MAX_HISTORY. lia.
Qed.

(** ** C6: partial events, then a final one *)

Lemma hello_run (w : window) :
  List.length (history w) = MAX_HISTORY ->
  run_events hello_events w =
    (Ret tt,
     let h := firstn MAX_HISTORY ("hello world" :: history w) in
     with_partial_label (label_set_text "" (label_set_text "hello" (partial_label w)))
       (with_history_labels (refresh_labels 0 h (history_labels w)) (with_history h w))).
Proof.
  intros Hlen. unfold run_events, hello_events, bind at 1.
  rewrite process_partial. unfold bind at 1. rewrite process_partial.
  unfold bind at 1. rewrite process_partial. unfold bind at 1.
  rewrite process_final by (destruct w; exact Hlen).
  destruct w; reflexivity.
Qed.

(** C6 (as the code does it). On a window with a full history, the partial
    events ["hel"], ["hell"], ["hello"] then the final ["hello world"] leave
    the partial slot empty and put ["hello world"] in history slot 0, every
    older entry moving one slot down (slot [i+1] gets the former slot [i],
    the oldest is dropped); from the initial window the other slots stay
    empty.  A partial event only replaces the partial label's text. *)
Theorem hello_world_scenario (w : window) :
  List.length (history w) = MAX_HISTORY ->
  (exists w', run_events hello_events w = (Ret tt, w') /\
     ltext (partial_label w') = "" /\
     history w' = "hello world" :: firstn 9 (history w) /\
     settings_of w' = settings_of w /\ color_cache w' = color_cache w /\ root w' = root w) /\
  (forall t, process_text_update t false w =
     (Ret tt, with_partial_label (label_set_text t (partial_label w)) w)) /\
  (forall sw sh, exists w', run_events hello_events (snd (init_window sw sh)) = (Ret tt, w') /\
     history w' = "hello world" :: repeat "" 9).
Proof.
  intros Hlen. split; [|split].
  - eexists. split; [exact (hello_run w Hlen)|].
    destruct w; cbn. repeat split; reflexivity.
  - intros t. apply process_partial.
  - intros sw sh. eexists. split.
    + apply hello_run. rewrite init_window_history. reflexivity.
    + cbn [history with_partial_label with_history_labels with_history].
      rewrite init_window_history. reflexivity.
Qed.

(** C6 fails as stated for a window whose history is not all alike: after
    one earlier final ["a"], the scenario moves ["a"] into slot 1, which
    held [""] before. *)
Lemma hello_world_scenario_cex :
  let wa := snd (run_events [("a", true)] (snd (init_window 1920 1080))) in
  nth 1 (history (snd (run_events hello_events wa))) "" <> nth 1 (history wa) "".
Proof. vm_compute. discriminate. Qed.

(** Witness: the scenario on the window [__init__] builds on a 1920x1080 screen. *)
Lemma hello_world_scenario_witness :
  List.length (history (snd (init_window 1920 1080))) = MAX_HISTORY /\
  ((exists w', run_events hello_events (snd (init_window 1920 1080)) = (Ret tt, w') /\
     ltext (partial_label w') = "" /\
     history w' = "hello world" :: firstn 9 (history (snd (init_window 1920 1080))) /\
     settings_of w' = settings_of (snd (init_window 1920 1080)) /\
     color_cache w' = color_cache (snd (init_window 1920 1080)) /\
     root w' = root (snd (init_window 1920 1080))) /\
  (forall t, process_text_update t false (snd (init_window 1920 1080)) =
     (Ret tt, with_partial_label (label_set_text t (partial_label (snd (init_window 1920 1080))))
                (snd (init_window 1920 1080)))) /\
  (forall sw sh, exists w', run_events hello_events (snd (init_window sw sh)) = (Ret tt, w') /\
     history w' = "hello world" :: repeat "" 9)).
Proof.
  assert (H : List.length (history (snd (init_window 1920 1080))) = MAX_HISTORY)
    by (vm_compute; reflexivity).
  split; [exact H|]. apply (hello_world_scenario (snd (init_window 1920 1080)) H).
Defined.

(** ** C8: [AudioTranscriber.stop] *)

(** C8. [stop()] on a transcriber that was never started (as [__init__]
    leaves it) raises nothing, makes no blocking call and clears [running];
    in general [stop()] clears [running] and joins the worker thread, with a
    2.0 s timeout, only when a thread exists. *)
Theorem stop_never_started (path : string) :
  stop (new_transcriber path) = (Ret tt, mkTranscriber path false None, []) /\
  (forall t, stop t =
     (Ret tt, mkTranscriber (model_path t) false (thread t),
      match thread t with Some _ => [JoinThread 2.0%float] | None => [] end)).
Proof.
  split; [reflexivity|].
  intros [p r [th|]]; reflexivity.
Qed.

(** ** C3: the colour fade table of a hex colour *)

Lemma scale_check_ok : scale_check = true.
Proof. vm_compute. reflexivity. Qed.

Lemma hex_pair_check_ok : hex_pair_check = true.
Proof. vm_compute. reflexivity. Qed.

Lemma outcome_Z_eqb_true (o : outcome Z) (z : Z) : outcome_Z_eqb o z = true -> o = Ret z.
Proof. destruct o; cbn; [intros H; apply Z.eqb_eq in H; subst; reflexivity|discriminate]. Qed.

Lemma scale_exact (c : Z) (i : nat) :
  (0 <= c <= 255)%Z -> i < MAX_HISTORY ->
  py_int_of_float (py_float c * fade_factor i)%float = Ret (spec_scale c i).
Proof.
  intros Hc Hi. apply outcome_Z_eqb_true.
  pose proof scale_check_ok as H. unfold scale_check in H.
  rewrite forallb_forall in H.
  assert (Hin : In c (map Z.of_nat (seq 0 256))).
  { replace c with (Z.of_nat (Z.to_nat c)) by lia. apply in_map, in_seq. lia. }
  specialize (H c Hin). rewrite forallb_forall in H. apply H, in_seq. lia.
Qed.

Lemma in_all_ascii (c : ascii) : In c all_ascii.
Proof.
  unfold all_ascii. rewrite <- (ascii_nat_embedding c). apply in_map, in_seq.
  pose proof (nat_ascii_bounded c). lia.
Qed.

Lemma hex_pair (c1 c2 : ascii) (v1 v2 : Z) :
  hexval c1 = Some v1 -> hexval c2 = Some v2 ->
  py_int16 (String c1 (String c2 EmptyString)) = Ret (v1 * 16 + v2)%Z.
Proof.
  intros H1 H2. apply outcome_Z_eqb_true.
  pose proof hex_pair_check_ok as H. unfold hex_pair_check in H.
  rewrite forallb_forall in H. specialize (H c1 (in_all_ascii c1)).
  rewrite forallb_forall in H. specialize (H c2 (in_all_ascii c2)).
  rewrite H1, H2 in H. exact H.
Qed.

Lemma hexval_range (c : ascii) (v : Z) : hexval c = Some v -> (0 <= v <= 15)%Z.
Proof.
  intros H.
  assert (Hc : forallb (fun c => match hexval c with
                                 | Some v => (0 <=? v)%Z && (v <=? 15)%Z
                                 | None => true end) all_ascii = true)
    by (vm_compute; reflexivity).
  rewrite forallb_forall in Hc. specialize (Hc c (in_all_ascii c)).
  rewrite H in Hc. apply andb_true_iff in Hc. destruct Hc as [H1 H2].
  apply Z.leb_le in H1, H2. lia.
Qed.

Lemma fade_list_exact (r g b : Z) (idx : list nat) :
  (0 <= r <= 255)%Z -> (0 <= g <= 255)%Z -> (0 <= b <= 255)%Z ->
  (forall i, In i idx -> i < MAX_HISTORY) ->
  fade_list r g b idx = (Ret tt, map (spec_fade_entry r g b) idx).
Proof.
  intros Hr Hg Hb. induction idx as [|i idx IH]; intros Hi; [reflexivity|].
  cbn [fade_list]. unfold fade_entry.
  assert (Hi0 : i < MAX_HISTORY) by (apply Hi; left; reflexivity).
  rewrite (scale_exact r i Hr Hi0), (scale_exact g i Hg Hi0), (scale_exact b i Hb Hi0).
  cbn [obind]. rewrite IH by (intros j Hj; apply Hi; right; exact Hj). reflexivity.
Qed.

#[warnings="-inexact-float"]
Lemma fade_factor_facts :
  fade_factor 0 = 1.0%float /\
  (forall i, i < 9 -> (fade_factor (S i) <=? fade_factor i)%float = true) /\
  (forall i, i < MAX_HISTORY ->
     ((0.2 <=? fade_factor i)%float && (fade_factor i <=? 1.0)%float)%bool = true).
Proof.
  split; [vm_compute; reflexivity|split].
  - intros i Hi.
    do 9 (destruct i as [|i]; [vm_compute; reflexivity|]). lia.
  - intros i Hi. unfold MAX_HISTORY in Hi.
    do 10 (destruct i as [|i]; [vm_compute; reflexivity|]). lia.
Qed.

Lemma color_cache_of_hex (c1 c2 c3 c4 c5 c6 : ascii) (v1 v2 v3 v4 v5 v6 : Z) :
  hexval c1 = Some v1 -> hexval c2 = Some v2 -> hexval c3 = Some v3 ->
  hexval c4 = Some v4 -> hexval c5 = Some v5 -> hexval c6 = Some v6 ->
  color_cache_of (hex_color c1 c2 c3 c4 c5 c6) =
    (Ret tt, map (spec_fade_entry (v1 * 16 + v2) (v3 * 16 + v4) (v5 * 16 + v6))
                 (seq 0 MAX_HISTORY)).
Proof.
  intros H1 H2 H3 H4 H5 H6.
  unfold color_cache_of.
  change (py_startswith (hex_color c1 c2 c3 c4 c5 c6) "#") with true.
  change (py_slice (hex_color c1 c2 c3 c4 c5 c6) 1 3) with (String c1 (String c2 EmptyString)).
  change (py_slice (hex_color c1 c2 c3 c4 c5 c6) 3 5) with (String c3 (String c4 EmptyString)).
  change (py_slice (hex_color c1 c2 c3 c4 c5 c6) 5 7) with (String c5 (String c6 EmptyString)).
  cbn [negb].
  rewrite (hex_pair c1 c2 v1 v2 H1 H2), (hex_pair c3 c4 v3 v4 H3 H4),
    (hex_pair c5 c6 v5 v6 H5 H6).
  apply hexval_range in H1, H2, H3, H4, H5, H6.
  apply fade_list_exact; try lia.
  intros i Hi. apply in_seq in Hi. lia.
Qed.

(** C3. For a base colour that is an RGB hex triple ["#rrggbb"], recomputing
    the colour fade table succeeds with exactly [MAX_HISTORY] = 10 colours;
    slot [i] is the base colour with each component [c] scaled to
    [floor(c * max(0.2, 1 - i/(10*1.5)))] (the exact rational factor: the
    binary64 computation of the code agrees with it on every component and
    slot); the binary64 factors of the code are non-increasing in [i],
    within [[0.2, 1.0]], and [factor(0) = 1.0] exactly. *)
#[warnings="-inexact-float"]
Theorem color_fade_table (w : window) (c1 c2 c3 c4 c5 c6 : ascii) (v1 v2 v3 v4 v5 v6 : Z) :
  hexval c1 = Some v1 -> hexval c2 = Some v2 -> hexval c3 = Some v3 ->
  hexval c4 = Some v4 -> hexval c5 = Some v5 -> hexval c6 = Some v6 ->
  text_color (settings_of w) = hex_color c1 c2 c3 c4 c5 c6 ->
  let cc := map (spec_fade_entry (v1 * 16 + v2) (v3 * 16 + v4) (v5 * 16 + v6))
                (seq 0 MAX_HISTORY) in
  update_color_cache w = (Ret tt, with_color_cache cc w) /\
  List.length cc = MAX_HISTORY /\
  fade_factor 0 = 1.0%float /\
  (forall i, i < 9 -> (fade_factor (S i) <=? fade_factor i)%float = true) /\
  (forall i, i < MAX_HISTORY ->
     ((0.2 <=? fade_factor i)%float && (fade_factor i <=? 1.0)%float)%bool = true).
Proof.
  intros H1 H2 H3 H4 H5 H6 Hc cc.
  split; [|split; [|exact fade_factor_facts]].
  - rewrite update_color_cache_spec, Hc,
      (color_cache_of_hex c1 c2 c3 c4 c5 c6 v1 v2 v3 v4 v5 v6 H1 H2 H3 H4 H5 H6).
    reflexivity.
  - subst cc. rewrite length_map, length_seq. reflexivity.
Qed.

(** Witness: the default text colour ["#FFFFFF"] of a fresh window. *)
#[warnings="-inexact-float"]
Lemma color_fade_table_witness :
  hexval "F" = Some 15%Z /\
  text_color (settings_of (snd (init_window 1920 1080))) = hex_color "F" "F" "F" "F" "F" "F" /\
  (let cc := map (spec_fade_entry (15 * 16 + 15) (15 * 16 + 15) (15 * 16 + 15))
                 (seq 0 MAX_HISTORY) in
   update_color_cache (snd (init_window 1920 1080)) =
     (Ret tt, with_color_cache cc (snd (init_window 1920 1080))) /\
   List.length cc = MAX_HISTORY /\
   fade_factor 0 = 1.0%float /\
   (forall i, i < 9 -> (fade_factor (S i) <=? fade_factor i)%float = true) /\
   (forall i, i < MAX_HISTORY ->
      ((0.2 <=? fade_factor i)%float && (fade_factor i <=? 1.0)%float)%bool = true)).
Proof.
  assert (HF : hexval "F" = Some 15%Z) by reflexivity.
  assert (Hc : text_color (settings_of (snd (init_window 1920 1080)))
               = hex_color "F" "F" "F" "F" "F" "F") by (vm_compute; reflexivity).
  split; [exact HF|split; [exact Hc|]].
  exact (color_fade_table (snd (init_window 1920 1080)) "F" "F" "F" "F" "F" "F"
           15 15 15 15 15 15 HF HF HF HF HF HF Hc).
Defined.

(** ** C4: a base colour not starting with "#" *)

(** C4. When the base colour does not start with ["#"] (a colour name, say),
    recomputing the fade table raises nothing and fills all [MAX_HISTORY]
    slots with the unscaled base colour. *)
Theorem color_fade_named (w : window) :
  py_startswith (text_color (settings_of w)) "#" = false ->
  update_color_cache w =
    (Ret tt, with_color_cache (repeat (text_color (settings_of w)) MAX_HISTORY) w) /\
  List.length (repeat (text_color (settings_of w)) MAX_HISTORY) = MAX_HISTORY.
Proof.
  intros H. split.
  - rewrite update_color_cache_spec. unfold color_cache_of. rewrite H. reflexivity.
  - apply repeat_length.
Qed.

(** Witness: the colour name ["white"]. *)
Lemma color_fade_named_witness :
  let w := with_settings (mkSettings "Helvetica" 24 "white" "floating" false)
             (snd (init_window 1920 1080)) in
  py_startswith (text_color (settings_of w)) "#" = false /\
  update_color_cache w =
    (Ret tt, with_color_cache (repeat (text_color (settings_of w)) MAX_HISTORY) w) /\
  List.length (repeat (text_color (settings_of w)) MAX_HISTORY) = MAX_HISTORY.
Proof.
  intros w.
  assert (H : py_startswith (text_color (settings_of w)) "#" = false) by reflexivity.
  split; [exact H|]. exact (color_fade_named w H).
Defined.

(** ** C10: short hex colours *)

Lemma hex_body_raise (n : nat) (cs : list ascii) (acc : Z) (e : py_exc) :
  List.length cs <= n -> hex_body cs acc = Raise e -> e = ValueError.
Proof.
  revert cs acc. induction n as [|n IH]; intros cs acc Hl H.
  - destruct cs; [discriminate|cbn in Hl; lia].
  - destruct cs as [|c cs]; [discriminate|].
    destruct c as [[] [] [] [] [] [] [] []]; cbn in H;
      try (inversion H; reflexivity);
      try (eapply IH; [|exact H]; cbn in Hl; lia).
    destruct cs as [|d cs]; cbn in H; [inversion H; reflexivity|].
    destruct (hexval d); [|inversion H; reflexivity].
    eapply IH; [|exact H]. cbn in Hl. lia.
Qed.

Lemma hex_digits_nonempty_raise (cs : list ascii) (e : py_exc) :
  hex_digits_nonempty cs = Raise e -> e = ValueError.
Proof.
  destruct cs as [|d cs]; cbn; [intros H; inversion H; reflexivity|].
  destruct (hexval d); [|intros H; inversion H; reflexivity].
  apply (hex_body_raise (List.length cs)). reflexivity.
Qed.

(** [int(s, 16)] only ever raises [ValueError]. *)
Lemma py_int16_raise (s : string) (e : py_exc) : py_int16 s = Raise e -> e = ValueError.
Proof.
  unfold py_int16. destruct (py_strip (list_ascii_of_string s)) as [|c cs].
  - apply hex_digits_nonempty_raise.
  - destruct c as [[] [] [] [] [] [] [] []]; cbn -[hex_digits_nonempty drop_0x];
      first [ apply hex_digits_nonempty_raise
            | destruct (hex_digits_nonempty (drop_0x cs)) eqn:E; cbn; intros H;
              inversion H; subst; apply (hex_digits_nonempty_raise _ _ E) ].
Qed.

Lemma substring_5_short (s : string) : String.length s <= 5 -> substring 5 2 s = "".
Proof.
  intros H.
  destruct s as [|a1 s]; [reflexivity|]. destruct s as [|a2 s]; [reflexivity|].
  destruct s as [|a3 s]; [reflexivity|]. destruct s as [|a4 s]; [reflexivity|].
  destruct s as [|a5 s]; [reflexivity|]. destruct s as [|a6 s]; [reflexivity|].
  cbn in H. lia.
Qed.

Lemma hex_single (c : ascii) (v : Z) :
  hexval c = Some v -> py_int16 (String c EmptyString) = Ret v.
Proof.
  intros H. apply outcome_Z_eqb_true.
  assert (Hc : hex_single_check = true) by (vm_compute; reflexivity).
  unfold hex_single_check in Hc. rewrite forallb_forall in Hc.
  specialize (Hc c (in_all_ascii c)). rewrite H in Hc. exact Hc.
Qed.

(** C10 (as the code does it).  For a text colour starting with ["#"]:
    - with at most four characters after the ["#"] (["#FFF"], say) the
      recomputation raises [ValueError], the blue slice [base_color[5:7]]
      being empty, and leaves the cache empty;
    - with five hexadecimal digits (["#FFFFF"], say) it raises nothing, the
      one-character blue slice parsing as a single digit;
    - with six hexadecimal digits it always produces a table of 10 colours. *)
Theorem short_hex_color_raises (w : window) :
  (py_startswith (text_color (settings_of w)) "#" = true ->
   String.length (text_color (settings_of w)) <= 5 ->
   update_color_cache w = (Raise ValueError, with_color_cache [] w)) /\
  (forall (c1 c2 c3 c4 c5 : ascii) (v1 v2 v3 v4 v5 : Z),
   hexval c1 = Some v1 -> hexval c2 = Some v2 -> hexval c3 = Some v3 ->
   hexval c4 = Some v4 -> hexval c5 = Some v5 ->
   text_color (settings_of w) = hex_color5 c1 c2 c3 c4 c5 ->
   fst (update_color_cache w) = Ret tt /\
   List.length (color_cache (snd (update_color_cache w))) = MAX_HISTORY) /\
  (forall (c1 c2 c3 c4 c5 c6 : ascii) (v1 v2 v3 v4 v5 v6 : Z),
   hexval c1 = Some v1 -> hexval c2 = Some v2 -> hexval c3 = Some v3 ->
   hexval c4 = Some v4 -> hexval c5 = Some v5 -> hexval c6 = Some v6 ->
   text_color (settings_of w) = hex_color c1 c2 c3 c4 c5 c6 ->
   fst (update_color_cache w) = Ret tt /\
   List.length (color_cache (snd (update_color_cache w))) = MAX_HISTORY).
Proof.
  split; [|split].
  - intros Hs Hl.
    rewrite update_color_cache_spec. unfold color_cache_of. rewrite Hs. cbn [negb].
    replace (py_slice (text_color (settings_of w)) 5 7) with ""
      by (symmetry; apply substring_5_short; exact Hl).
    destruct (py_int16 (py_slice (text_color (settings_of w)) 1 3)) as [r|e] eqn:E1;
      [|apply py_int16_raise in E1; subst e; reflexivity].
    destruct (py_int16 (py_slice (text_color (settings_of w)) 3 5)) as [g|e] eqn:E2;
      [|apply py_int16_raise in E2; subst e; reflexivity].
    reflexivity.
  - intros c1 c2 c3 c4 c5 v1 v2 v3 v4 v5 H1 H2 H3 H4 H5 Hc.
    rewrite update_color_cache_spec, Hc. unfold color_cache_of.
    change (py_startswith (hex_color5 c1 c2 c3 c4 c5) "#") with true.
    change (py_slice (hex_color5 c1 c2 c3 c4 c5) 1 3) with (String c1 (String c2 EmptyString)).
    change (py_slice (hex_color5 c1 c2 c3 c4 c5) 3 5) with (String c3 (String c4 EmptyString)).
    change (py_slice (hex_color5 c1 c2 c3 c4 c5) 5 7) with (String c5 EmptyString).
    cbn [negb].
    rewrite (hex_pair c1 c2 v1 v2 H1 H2), (hex_pair c3 c4 v3 v4 H3 H4), (hex_single c5 v5 H5).
    apply hexval_range in H1, H2, H3, H4, H5.
    rewrite (fade_list_exact (v1 * 16 + v2) (v3 * 16 + v4) v5 (seq 0 MAX_HISTORY))
      by (try lia; intros i Hi; apply in_seq in Hi; lia).
    cbn [fst snd color_cache with_color_cache]. rewrite length_map, length_seq.
    split; reflexivity.
  - intros c1 c2 c3 c4 c5 c6 v1 v2 v3 v4 v5 v6 H1 H2 H3 H4 H5 H6 Hc.
    rewrite update_color_cache_spec, Hc,
      (color_cache_of_hex c1 c2 c3 c4 c5 c6 v1 v2 v3 v4 v5 v6 H1 H2 H3 H4 H5 H6).
    cbn [fst snd color_cache with_color_cache]. rewrite length_map, length_seq.
    split; reflexivity.
Qed.

(** Witness: ["#FFF"] raises, ["#FFFFF"] and ["#FFFFFF"] give a table. *)
Lemma short_hex_color_raises_witness :
  let w3 := with_settings (mkSettings "Helvetica" 24 "#FFF" "floating" false)
              (snd (init_window 1920 1080)) in
  let w5 := with_settings (mkSettings "Helvetica" 24 "#FFFFF" "floating" false)
              (snd (init_window 1920 1080)) in
  let w6 := snd (init_window 1920 1080) in
  update_color_cache w3 = (Raise ValueError, with_color_cache [] w3) /\
  (fst (update_color_cache w5) = Ret tt /\
   List.length (color_cache (snd (update_color_cache w5))) = MAX_HISTORY) /\
  (fst (update_color_cache w6) = Ret tt /\
   List.length (color_cache (snd (update_color_cache w6))) = MAX_HISTORY).
Proof.
  intros w3 w5 w6.
  assert (HF : hexval "F" = Some 15%Z) by reflexivity.
  split; [|split].
  - apply (short_hex_color_raises w3); [reflexivity|cbn; lia].
  - apply (proj1 (proj2 (short_hex_color_raises w5)) "F"%char "F"%char "F"%char "F"%char "F"%char 15%Z 15%Z 15%Z 15%Z 15%Z);
      try exact HF. reflexivity.
  - apply (proj2 (proj2 (short_hex_color_raises w6)) "F"%char "F"%char "F"%char "F"%char "F"%char "F"%char 15%Z 15%Z 15%Z 15%Z 15%Z 15%Z);
      try exact HF. vm_compute. reflexivity.
Defined.

(** C10 fails as stated: ["#FFFFF"] has fewer than six hexadecimal digits,
    yet recomputing the table raises nothing and produces 10 colours, since
    [int("F", 16)] succeeds on the one-character slice. *)
Lemma short_hex_color_cex :
  let w := with_settings (mkSettings "Helvetica" 24 "#FFFFF" "floating" false)
             (snd (init_window 1920 1080)) in
  fst (update_color_cache w) = Ret tt /\ List.length (color_cache (snd (update_color_cache w))) = 10.
Proof. vm_compute. split; reflexivity. Qed.

(** ** C5: docked layout on a 1920x1080 screen *)

Lemma style_labels_ok (i : nat) (cc : list string) (f : string * Z) (wr : option Z)
  (ls : list label) :
  i + List.length ls <= List.length cc ->
  snd (style_labels i cc f wr ls) = None /\
  (forall x, wr = Some x -> Forall (fun l => lwrap l = x) (fst (style_labels i cc f wr ls))).
Proof.
  revert i. induction ls as [|l ls IH]; intros i Hl.
  - split; [reflexivity|]. intros x _. constructor.
  - cbn [style_labels].
    destruct (nth_error cc i) as [fg|] eqn:Hn.
    + specialize (IH (S i) ltac:(cbn in Hl; lia)). destruct IH as [IH1 IH2].
      destruct (style_labels (S i) cc f wr ls) as [rest e] eqn:Hr. cbn in IH1, IH2 |- *.
      split; [exact IH1|]. intros x Hx. constructor; [subst wr; reflexivity|].
      apply IH2. exact Hx.
    + apply nth_error_None in Hn. cbn in Hl. lia.
Qed.

Lemma docked_visual (w : window) (y : Z) :
  screen_width (root w) = 1920%Z -> fullscreen (settings_of w) = false ->
  List.length (history_labels w) <= List.length (color_cache w) ->
  fst (place_of (settings_of w) (set_fullscreen false (root w)))
    = set_geometry (mkGeometry 1920 250 (Some (0%Z, y))) (set_fullscreen false (root w)) ->
  snd (place_of (settings_of w) (set_fullscreen false (root w))) = 1920%Z ->
  exists w', apply_visual_settings w = (Ret tt, w') /\
    root_geometry (root w') = mkGeometry 1920 250 (Some (0%Z, y)) /\
    lwrap (partial_label w') = 1870%Z /\
    Forall (fun l => lwrap l = 1870%Z) (history_labels w').
Proof.
  intros Hsw Hfs Hlen Hp1 Hp2.
  rewrite apply_visual_settings_spec. unfold visual_of.
  set (f := (font_family (settings_of w), font_size (settings_of w))).
  destruct (style_labels_ok 0 (color_cache w) f None (history_labels w) ltac:(lia))
    as [He1 _].
  destruct (style_labels 0 (color_cache w) f None (history_labels w)) as [ls1 e1] eqn:H1.
  cbn in He1. subst e1. rewrite Hfs.
  destruct (place_of (settings_of w) (set_fullscreen false (root w))) as [r2 ww] eqn:Hp.
  cbn in Hp1, Hp2. subst r2 ww.
  assert (Hl1 : 0 + List.length ls1 <= List.length (color_cache w)).
  { replace ls1 with (fst (style_labels 0 (color_cache w) f None (history_labels w)))
      by (rewrite H1; reflexivity).
    rewrite style_labels_length. lia. }
  destruct (style_labels_ok 0 (color_cache w) f (Some (1920 - 50)%Z) ls1 Hl1) as [He2 Hw2].
  specialize (Hw2 _ eq_refl).
  destruct (style_labels 0 (color_cache w) f (Some (1920 - 50)%Z) ls1) as [ls2 e2] eqn:H2.
  cbn in He2, Hw2. subst e2.
  eexists. split; [reflexivity|]. cbn. split; [reflexivity|]. split; [reflexivity|].
  exact Hw2.
Qed.

(** C5. With [fullscreen] off on a 1920x1080 screen (and the 10 history
    labels covered by the colour cache, as every recomputation leaves it),
    the "top" dock requests geometry [1920x250+0+0], the "bottom" dock
    (taskbar offset 40) requests [1920x250+0+790], and in both the partial
    label and every history label get wrap width [1920 - 50 = 1870]. *)
Theorem docked_layout (w : window) :
  screen_width (root w) = 1920%Z -> screen_height (root w) = 1080%Z ->
  fullscreen (settings_of w) = false ->
  List.length (history_labels w) <= List.length (color_cache w) ->
  (position (settings_of w) = "top" ->
   exists w', apply_visual_settings w = (Ret tt, w') /\
     root_geometry (root w') = mkGeometry 1920 250 (Some (0%Z, 0%Z)) /\
     lwrap (partial_label w') = 1870%Z /\
     Forall (fun l => lwrap l = 1870%Z) (history_labels w')) /\
  (position (settings_of w) = "bottom" ->
   exists w', apply_visual_settings w = (Ret tt, w') /\
     root_geometry (root w') = mkGeometry 1920 250 (Some (0%Z, 790%Z)) /\
     lwrap (partial_label w') = 1870%Z /\
     Forall (fun l => lwrap l = 1870%Z) (history_labels w')).
Proof.
  intros Hsw Hsh Hfs Hlen. split; intros Hpos.
  - apply docked_visual; try assumption;
      unfold place_of; rewrite Hfs, Hpos; cbn; rewrite Hsw; reflexivity.
  - apply docked_visual; try assumption;
      unfold place_of; rewrite Hfs, Hpos; cbn; rewrite Hsw; try reflexivity.
    destruct (root w); cbn in *; subst; reflexivity.
Qed.

(** Witness: the fresh window on a 1920x1080 screen, switched to the top dock. *)
Lemma docked_layout_witness :
  let w := with_settings (mkSettings "Helvetica" 24 "#FFFFFF" "top" false)
             (snd (init_window 1920 1080)) in
  screen_width (root w) = 1920%Z /\ screen_height (root w) = 1080%Z /\
  fullscreen (settings_of w) = false /\
  List.length (history_labels w) <= List.length (color_cache w) /\
  ((position (settings_of w) = "top" ->
    exists w', apply_visual_settings w = (Ret tt, w') /\
      root_geometry (root w') = mkGeometry 1920 250 (Some (0%Z, 0%Z)) /\
      lwrap (partial_label w') = 1870%Z /\
      Forall (fun l => lwrap l = 1870%Z) (history_labels w')) /\
   (position (settings_of w) = "bottom" ->
    exists w', apply_visual_settings w = (Ret tt, w') /\
      root_geometry (root w') = mkGeometry 1920 250 (Some (0%Z, 790%Z)) /\
      lwrap (partial_label w') = 1870%Z /\
      Forall (fun l => lwrap l = 1870%Z) (history_labels w'))).
Proof.
  intros w.
  assert (H1 : screen_width (root w) = 1920%Z) by (vm_compute; reflexivity).
  assert (H2 : screen_height (root w) = 1080%Z) by (vm_compute; reflexivity).
  assert (H3 : fullscreen (settings_of w) = false) by reflexivity.
  assert (H4 : List.length (history_labels w) <= List.length (color_cache w))
    by (vm_compute; lia).
  split; [exact H1|split; [exact H2|split; [exact H3|split; [exact H4|]]]].
  exact (docked_layout w H1 H2 H3 H4).
Defined.

(** ** Further properties of the program *)

(** *** The recognition loop *)

Lemma feed_frame_fields {S} (e : engine S) (st : loop_state S) (d : string) (q : list string) :
  queue (feed_frame e st d q) = q /\ fed (feed_frame e st d q) = (fed st ++ [d])%list /\
  (emitted (feed_frame e st d q) = emitted st \/
   exists ev, emitted (feed_frame e st d q) = (emitted st ++ [ev])%list /\ fst ev <> "").
Proof.
  unfold feed_frame.
  destruct (accept_waveform e (eng st) d) as [s1 []];
    [destruct (result e s1) as [s2 j]|destruct (partial_result e s1) as [s2 j]];
    cbn; (split; [reflexivity|split; [reflexivity|]]); unfold emit_if;
    match goal with |- context [String.eqb ?t ""] =>
      destruct (String.eqb t "") eqn:Ht; [left; reflexivity|right];
      eexists; split; [reflexivity|]; cbn; intros H; rewrite H in Ht; discriminate
    end.
Qed.

Lemma listen_fifo {S} (e : engine S) (st : loop_state S) (ts : list tick) :
  (fed (listen e st ts) ++ queue (listen e st ts) = fed st ++ queue st ++ arrivals ts)%list.
Proof.
  revert st. induction ts as [|[d| |m] ts IH]; intros st; cbn [listen arrivals].
  - rewrite app_nil_r. reflexivity.
  - rewrite IH. cbn. rewrite <- app_assoc. reflexivity.
  - destruct (queue st) as [|d q] eqn:Hq; [rewrite IH, Hq; reflexivity|].
    rewrite IH. destruct (feed_frame_fields e st d q) as [H1 [H2 _]].
    rewrite H1, H2, <- app_assoc. reflexivity.
  - cbn. rewrite app_nil_r. reflexivity.
Qed.

Lemma listen_nonempty {S} (e : engine S) (st : loop_state S) (ts : list tick) :
  Forall (fun ev => fst ev <> "") (emitted st) ->
  Forall (fun ev => fst ev <> "") (emitted (listen e st ts)).
Proof.
  revert st. induction ts as [|[d| |m] ts IH]; intros st H; cbn [listen]; [exact H| | |].
  - apply IH. exact H.
  - destruct (queue st) as [|d q]; [apply IH; exact H|]. apply IH.
    destruct (feed_frame_fields e st d q) as [_ [_ [He|[ev [He Hev]]]]]; rewrite He;
      [exact H|]. apply Forall_app. split; [exact H|]. constructor; [exact Hev|constructor].
  - cbn. apply Forall_app. split; [exact H|]. constructor; [|constructor]. cbn. discriminate.
Qed.

Lemma listen_fail {S} (e : engine S) (st : loop_state S) (pre post : list tick) (msg : string) :
  (forall m, ~ In (StreamFail m) pre) ->
  listen e st (pre ++ StreamFail msg :: post) =
    let st' := listen e st pre in
    mkLoop (eng st') (queue st') (fed st') (emitted st' ++ [("Audio Error: " ++ msg, true)]).
Proof.
  revert st. induction pre as [|[d| |m] pre IH]; intros st Hpre; [reflexivity| | |].
  - cbn [app listen]. apply IH. intros m' Hm. apply (Hpre m'). right. exact Hm.
  - cbn [app listen]. destruct (queue st); apply IH; intros m' Hm; apply (Hpre m'); right; exact Hm.
  - exfalso. apply (Hpre m). left. reflexivity.
Qed.

Lemma listen_count {S} (e : engine S) (st : loop_state S) (ts : list tick) :
  List.length (emitted (listen e st ts)) + List.length (fed st) <=
  List.length (emitted st) + List.length (fed (listen e st ts)) + 1.
Proof.
  revert st. induction ts as [|[d| |m] ts IH]; intros st; cbn [listen]; [lia| | |].
  - specialize (IH (mkLoop (eng st) (queue st ++ [d]) (fed st) (emitted st))).
    cbn [fed emitted] in IH. exact IH.
  - destruct (queue st) as [|d q]; [apply IH|].
    specialize (IH (feed_frame e st d q)).
    destruct (feed_frame_fields e st d q) as [_ [Hf [He|[ev [He _]]]]];
      rewrite Hf, length_app in IH; [rewrite He in IH|rewrite He, length_app in IH];
      cbn in IH; lia.
  - cbn. rewrite length_app. cbn. lia.
Qed.

Lemma json_get_missing (j : json) (k : string) : ~ In k (map fst j) -> json_get j k = "".
Proof.
  induction j as [|[k' v] j IH]; intros H; [reflexivity|].
  cbn. destruct (String.eqb k k') eqn:Hk.
  - apply String.eqb_eq in Hk. subst. exfalso. apply H. left. reflexivity.
  - apply IH. intros Hin. apply H. right. exact Hin.
Qed.

Lemma listen_silent {S} (e : engine S) (st : loop_state S) (ts : list tick) :
  (forall s, ~ In "text" (map fst (snd (result e s)))) ->
  (forall s, ~ In "partial" (map fst (snd (partial_result e s)))) ->
  forall ev, In ev (emitted (listen e st ts)) ->
  In ev (emitted st) \/ exists msg, ev = ("Audio Error: " ++ msg, true).
Proof.
  intros Hr Hp. revert st. induction ts as [|[d| |m] ts IH]; intros st ev Hin;
    cbn [listen] in Hin; [left; exact Hin| | |].
  - apply (IH _ ev Hin).
  - destruct (queue st) as [|d q]; [apply (IH _ ev Hin)|].
    destruct (IH _ ev Hin) as [H|H]; [left|right; exact H].
    unfold feed_frame in H.
    destruct (accept_waveform e (eng st) d) as [s1 []].
    + specialize (Hr s1). destruct (result e s1) as [s2 j]. cbn in Hr, H.
      unfold emit_if in H. rewrite (json_get_missing j "text" Hr) in H. exact H.
    + specialize (Hp s1). destruct (partial_result e s1) as [s2 j]. cbn in Hp, H.
      unfold emit_if in H. rewrite (json_get_missing j "partial" Hp) in H. exact H.
  - cbn in Hin. apply in_app_or in Hin. destruct Hin as [H|[H|[]]]; [left; exact H|].
    right. exists m. symmetry. exact H.
Qed.

(** X1. Frames are fed to the recogniser in the order the audio callback
    queued them: the frames fed, followed by those still queued when the
    loop ends, are exactly the frames that arrived. *)
Theorem recognition_loop_fifo {S} (e : engine S) (s0 : S) (ts : list tick) :
  (fed (recognition_loop e s0 Opened ts) ++ queue (recognition_loop e s0 Opened ts))%list =
  arrivals ts.
Proof. unfold recognition_loop. rewrite listen_fifo. reflexivity. Qed.

(** X2. The recognition thread never hands an empty text to the window. *)
Theorem recognition_loop_texts_nonempty {S} (e : engine S) (s0 : S) (su : startup)
  (ts : list tick) :
  Forall (fun ev => fst ev <> "") (emitted (recognition_loop e s0 su ts)).
Proof.
  destruct su as [msg|msg|]; cbn.
  - constructor; [discriminate|constructor].
  - constructor; [discriminate|constructor].
  - apply listen_nonempty. constructor.
Qed.

(** X3. An exception in the audio stream ends the loop: the ticks after it
    have no effect, and ["Audio Error: ..."] (final) is the last callback. *)
Theorem recognition_loop_stream_error {S} (e : engine S) (s0 : S) (pre post : list tick)
  (msg : string) :
  (forall m, ~ In (StreamFail m) pre) ->
  recognition_loop e s0 Opened (pre ++ StreamFail msg :: post) =
    let st := recognition_loop e s0 Opened pre in
    mkLoop (eng st) (queue st) (fed st) (emitted st ++ [("Audio Error: " ++ msg, true)]).
Proof. intros H. apply listen_fail. exact H. Qed.

Lemma recognition_loop_stream_error_witness :
  (forall m, ~ In (StreamFail m) [Arrive "a"; Poll]) /\
  recognition_loop (mkEngine unit (fun s _ => (s, true)) (fun s => (s, [("text", "hi")]))
                      (fun s => (s, [])))
    tt Opened ([Arrive "a"; Poll] ++ StreamFail "x" :: [Arrive "b"; Poll]) =
  mkLoop tt [] ["a"] [("hi", true); ("Audio Error: x", true)].
Proof.
  assert (H : forall m, ~ In (StreamFail m) [Arrive "a"; Poll])
    by (intros m [H|[H|[]]]; discriminate).
  split; [exact H|].
  rewrite (recognition_loop_stream_error _ tt [Arrive "a"; Poll] [Arrive "b"; Poll] "x" H).
  reflexivity.
Defined.

(** X4. Each frame fed to the recogniser yields at most one callback; the
    only other callback is a single final error report. *)
Theorem recognition_loop_callbacks_bound {S} (e : engine S) (s0 : S) (su : startup)
  (ts : list tick) :
  List.length (emitted (recognition_loop e s0 su ts)) <=
  List.length (fed (recognition_loop e s0 su ts)) + 1.
Proof.
  destruct su as [msg|msg|]; cbn [recognition_loop emitted fed List.length]; [lia|lia|].
  pose proof (listen_count e (mkLoop s0 [] [] []) ts) as H. cbn in H. lia.
Qed.

(** X5. When the recogniser's JSON results never carry the ["text"] key
    (final results) nor the ["partial"] key (partial results), the
    [.get(..., "")] defaults are empty and nothing reaches the window
    except an ["Audio Error: ..."] report. *)
Theorem recognition_loop_missing_keys {S} (e : engine S) (s0 : S) (ts : list tick) :
  (forall s, ~ In "text" (map fst (snd (result e s)))) ->
  (forall s, ~ In "partial" (map fst (snd (partial_result e s)))) ->
  forall ev, In ev (emitted (recognition_loop e s0 Opened ts)) ->
  exists msg, ev = ("Audio Error: " ++ msg, true).
Proof.
  intros Hr Hp ev Hin.
  destruct (listen_silent e (mkLoop s0 [] [] []) ts Hr Hp ev Hin) as [[]|H]. exact H.
Qed.

Lemma recognition_loop_missing_keys_witness :
  exists msg, ("Audio Error: boom", true) = ("Audio Error: " ++ msg, true).
Proof.
  apply (recognition_loop_missing_keys keyless_engine 0 [Arrive "a"; Poll; Arrive "b"; Poll;
                                                         StreamFail "boom"]).
  - intros s [H|[]]. discriminate.
  - intros s [H|[]]. discriminate.
  - vm_compute. left. reflexivity.
Defined.

(** *** The settings dialog *)

(** X7. Opening the dialog on the window's current settings and applying it
    unchanged hands back those settings with the font size clamped to the
    spinbox range [8..150]: the exact settings exactly when the font size
    is within that range. *)
Theorem dialog_round_trip (s : settings) :
  dict_settings (dialog_apply (dialog_init (settings_dict s))) =
    Some (mkSettings (font_family s) (spin_clamp (font_size s)) (text_color s) (position s)
                     (fullscreen s)) /\
  (dict_settings (dialog_apply (dialog_init (settings_dict s))) = Some s <->
   (8 <= font_size s <= 150)%Z).
Proof.
  destruct s as [ff fs tc pos fsc].
  assert (E : dict_settings (dialog_apply (dialog_init (settings_dict (mkSettings ff fs tc pos fsc))))
              = Some (mkSettings ff (spin_clamp fs) tc pos fsc)) by reflexivity.
  split; [exact E|]. rewrite E. cbn [font_size].
  unfold spin_clamp, spin_to, spin_from. split.
  - intros H. inversion H as [Hc]. clear H.
    destruct (150 <? fs)%Z eqn:H1; [apply Z.ltb_lt in H1; lia|apply Z.ltb_ge in H1].
    destruct (fs <? 8)%Z eqn:H2; [apply Z.ltb_lt in H2; lia|apply Z.ltb_ge in H2]. lia.
  - intros H. replace (150 <? fs)%Z with false by (symmetry; apply Z.ltb_ge; lia).
    replace (fs <? 8)%Z with false by (symmetry; apply Z.ltb_ge; lia). reflexivity.
Qed.

(** X8. For a settings dictionary carrying none of the five keys, the dialog
    falls back to the same defaults as [CaptionWindow]. *)
Theorem dialog_defaults (d : pydict) :
  (forall k, In k ["font_family"; "font_size"; "text_color"; "position"; "fullscreen"] ->
             ~ In k (map fst d)) ->
  dict_settings (dialog_apply (dialog_init d)) = Some default_settings.
Proof.
  intros H.
  assert (G : forall k v, In k ["font_family"; "font_size"; "text_color"; "position"; "fullscreen"] ->
                          dict_get d k v = v).
  { intros k v Hk. specialize (H k Hk). clear Hk. induction d as [|[k' v'] d IH]; [reflexivity|].
    cbn. destruct (String.eqb k k') eqn:E.
    - apply String.eqb_eq in E. subst. exfalso. apply H. left. reflexivity.
    - apply IH. intros Hin. apply H. right. exact Hin. }
  unfold dialog_init. cbn [dialog_apply].
  rewrite !G by (cbn; tauto). reflexivity.
Qed.

Lemma dialog_defaults_witness :
  dict_settings (dialog_apply (dialog_init [("volume", VInt 3)])) = Some default_settings.
Proof.
  apply dialog_defaults. intros k Hk [H|[]]. cbn in H. subst k.
  cbn in Hk. repeat (destruct Hk as [Hk|Hk]; [discriminate|]). exact Hk.
Defined.

(** X9. Picking a colour in the dialog changes only the text colour (the
    font size coming back clamped to the spinbox range as in X7); a
    cancelled picker ([None]) or an empty answer keeps the current colour. *)
Theorem dialog_choose_color (s : settings) (picked : option string) :
  dict_settings (dialog_apply (choose_color picked (dialog_init (settings_dict s)))) =
  Some (mkSettings (font_family s) (spin_clamp (font_size s))
          (match picked with
           | Some c => if String.eqb c "" then text_color s else c
           | None => text_color s
           end)
          (position s) (fullscreen s)).
Proof.
  destruct s; destruct picked as [c|]; [|reflexivity].
  cbn [choose_color]. destruct (String.eqb c ""); reflexivity.
Qed.

(** *** Starting and stopping the transcriber *)

(** X23. A second [start] while the first is running spawns nothing: two
    consecutive starts spawn at most one worker thread. *)
Theorem start_twice (t : transcriber) :
  match start t with
  | (o1, t1, c1) =>
      match start t1 with
      | (o2, t2, c2) =>
          o1 = Ret tt /\ o2 = Ret tt /\ t2 = t1 /\ running t1 = true /\
          (c1 ++ c2)%list = (if running t then [] else [SpawnThread])
      end
  end.
Proof. destruct t as [p [] th]; cbn; repeat split; reflexivity. Qed.

(** X24. [stop] followed by [start] joins the old worker (timeout 2.0) if
    one was ever started and then spawns a fresh one. *)
#[warnings="-inexact-float"]
Theorem stop_then_start (t : transcriber) :
  match stop t with
  | (o1, t1, c1) =>
      match start t1 with
      | (o2, t2, c2) =>
          o1 = Ret tt /\ o2 = Ret tt /\
          t2 = mkTranscriber (model_path t) true (Some ThreadAlive) /\
          (c1 ++ c2)%list = ((match thread t with Some _ => [JoinThread 2.0] | None => [] end)
                     ++ [SpawnThread])%list
      end
  end.
Proof. destruct t as [p r [th|]]; cbn; repeat split; reflexivity. Qed.

(** *** Text updates on any window *)

Lemma process_final_gen (t : string) (w : window) :
  process_text_update t true w =
    (Ret tt,
     let h1 := t :: history w in
     let h := if Nat.ltb MAX_HISTORY (List.length h1) then removelast h1 else h1 in
     with_partial_label (label_set_text "" (partial_label w))
       (with_history_labels (refresh_labels 0 h (history_labels w)) (with_history h w))).
Proof.
  destruct w as [s h cc ls pl r].
  cbv beta iota zeta delta [process_text_update bind modify get pop_history ret with_history].
  cbn [history settings_of color_cache history_labels partial_label root].
  destruct (Nat.ltb MAX_HISTORY (List.length (t :: h))); reflexivity.
Qed.

Lemma refresh_labels_style (i : nat) (h : list string) (ls : list label) :
  map style_of (refresh_labels i h ls) = map style_of ls.
Proof.
  revert i. induction ls as [|l ls IH]; intros i; [reflexivity|].
  cbn [refresh_labels map]. rewrite IH. f_equal.
  destruct (Nat.ltb i (List.length h)); reflexivity.
Qed.

Lemma skipn_nth_cons (i : nat) (h : list string) :
  i < List.length h -> skipn i h = nth i h "" :: skipn (S i) h.
Proof.
  revert h. induction i as [|i IH]; intros [|x h] Hi; cbn in Hi |- *; try lia.
  - reflexivity.
  - apply IH. lia.
Qed.

Lemma refresh_labels_text (i : nat) (h : list string) (ls : list label) :
  List.length ls + i = List.length h -> map ltext (refresh_labels i h ls) = skipn i h.
Proof.
  revert i. induction ls as [|l ls IH]; intros i Hl.
  - cbn in Hl |- *. subst i. symmetry. apply skipn_all.
  - cbn [refresh_labels map]. cbn in Hl.
    replace (Nat.ltb i (List.length h)) with true by (symmetry; apply Nat.ltb_lt; lia).
    rewrite IH by lia. cbn. rewrite (skipn_nth_cons i h) by lia. reflexivity.
Qed.

Lemma refresh_labels_length (i : nat) (h : list string) (ls : list label) :
  List.length (refresh_labels i h ls) = List.length ls.
Proof.
  revert i. induction ls as [|l ls IH]; intros i; [reflexivity|]. cbn. rewrite IH. reflexivity.
Qed.

Lemma process_frame (t : string) (f : bool) (w : window) :
  exists w', process_text_update t f w = (Ret tt, w') /\ same_frame w w'.
Proof.
  destruct f.
  - rewrite process_final_gen. eexists. split; [reflexivity|].
    unfold same_frame. cbn. rewrite refresh_labels_style. repeat split; reflexivity.
  - rewrite process_partial. eexists. split; [reflexivity|].
    unfold same_frame. destruct w; repeat split; reflexivity.
Qed.

Lemma run_events_cons (t : string) (f : bool) (es : list event) (w : window) :
  run_events ((t, f) :: es) w =
    match process_text_update t f w with
    | (Ret _, w1) => run_events es w1
    | (Raise e, w1) => (Raise e, w1)
    end.
Proof. reflexivity. Qed.

Lemma run_events_frame (es : list event) (w : window) :
  exists w', run_events es w = (Ret tt, w') /\ same_frame w w'.
Proof.
  revert w. induction es as [|[t f] es IH]; intros w.
  - exists w. split; [reflexivity|]. repeat split; reflexivity.
  - rewrite run_events_cons. destruct (process_frame t f w) as [w1 [H1 F1]]. rewrite H1.
    destruct (IH w1) as [w2 [H2 F2]]. exists w2. split; [exact H2|].
    destruct F1 as [A1 [B1 [C1 [D1 E1]]]], F2 as [A2 [B2 [C2 [D2 E2]]]].
    repeat split; congruence.
Qed.

Lemma run_events_app (es1 es2 : list event) (w w1 : window) :
  run_events es1 w = (Ret tt, w1) -> run_events (es1 ++ es2) w = run_events es2 w1.
Proof.
  revert w. induction es1 as [|[t f] es1 IH]; intros w H.
  - cbn in H. inversion H. reflexivity.
  - cbn [app]. rewrite run_events_cons in H |- *.
    destruct (process_text_update t f w) as [[[]|e] w2]; [|discriminate].
    apply IH. exact H.
Qed.

(** X12. A text update never raises, whatever the window holds, and it
    never touches the settings, the colour cache, the root window, or the
    font, colour and wrap width of any label. *)
Theorem text_updates_frame (es : list event) (w : window) :
  exists w', run_events es w = (Ret tt, w') /\
    settings_of w' = settings_of w /\ color_cache w' = color_cache w /\ root w' = root w /\
    map style_of (history_labels w') = map style_of (history_labels w) /\
    style_of (partial_label w') = style_of (partial_label w).
Proof. apply run_events_frame. Qed.

(** Text updates from a window whose [MAX_HISTORY] labels show its full
    history keep the labels showing the history. *)
Lemma run_events_mirror (es : list event) (w : window) :
  List.length (history w) = MAX_HISTORY -> map ltext (history_labels w) = history w ->
  exists w', run_events es w = (Ret tt, w') /\ List.length (history w') = MAX_HISTORY /\
    map ltext (history_labels w') = history w'.
Proof.
  revert w. induction es as [|[t f] es IH]; intros w Hl Hm.
  - exists w. repeat split; assumption.
  - rewrite run_events_cons. destruct f.
    + rewrite (process_final t w Hl). cbv zeta.
      apply IH; cbn [history with_partial_label with_history_labels with_history history_labels].
      * apply length_firstn_10. exact Hl.
      * apply refresh_labels_text.
        rewrite length_firstn_10 by exact Hl.
        rewrite <- Hl, <- Hm, length_map. lia.
    + rewrite process_partial. apply IH; destruct w; assumption.
Qed.

Lemma init_window_eq (sw sh : Z) :
  init_window sw sh =
    (Ret tt,
     mkWindow default_settings (repeat "" MAX_HISTORY) init_cache
       (map (fun c => mkLabel "" ("Helvetica", 24%Z) c 750) init_cache)
       (mkLabel "" ("Helvetica", 24%Z) "#FFFFFF" 750)
       (mkRoot sw sh 1 false (mkGeometry 800 200 None))).
Proof. vm_compute. reflexivity. Qed.

(** X10. From the window [__init__] builds, after any sequence of text
    updates, history label [i] shows [history[i]] for every [i]. *)
Theorem labels_show_history (sw sh : Z) (es : list event) :
  exists w0 w', init_window sw sh = (Ret tt, w0) /\ run_events es w0 = (Ret tt, w') /\
    map ltext (history_labels w') = history w'.
Proof.
  rewrite init_window_eq.
  destruct (run_events_mirror es
              (mkWindow default_settings (repeat "" MAX_HISTORY) init_cache
                 (map (fun c => mkLabel "" ("Helvetica", 24%Z) c 750) init_cache)
                 (mkLabel "" ("Helvetica", 24%Z) "#FFFFFF" 750)
                 (mkRoot sw sh 1 false (mkGeometry 800 200 None))))
    as [w' [H1 [_ H2]]]; [reflexivity|vm_compute; reflexivity|].
  eexists. exists w'. split; [reflexivity|]. split; assumption.
Qed.

Lemma run_events_last (es : list event) (t : string) (f : bool) (w : window) :
  exists w', run_events (es ++ [(t, f)]) w = (Ret tt, w') /\
    (f = true -> hd_error (history w') = Some t /\ ltext (partial_label w') = "") /\
    (f = false -> ltext (partial_label w') = t).
Proof.
  destruct (run_events_frame es w) as [w1 [H1 _]].
  rewrite (run_events_app es [(t, f)] w w1 H1), run_events_cons.
  destruct f.
  - rewrite process_final_gen. eexists. split; [reflexivity|].
    split; [|discriminate]. intros _. cbn. split; [|reflexivity].
    destruct (history w1) as [|x h]; [reflexivity|].
    match goal with |- context [if ?b then _ else _] => destruct b end; reflexivity.
  - rewrite process_partial. eexists. split; [reflexivity|].
    split; [discriminate|]. intros _. reflexivity.
Qed.

(** X11. On any window, after a sequence of text updates ending with
    [(t, is_final)]: if final, [t] is the newest history entry and the
    partial label is cleared; if partial, the partial label shows [t]. *)
Theorem last_update_shown (es : list event) (t : string) (f : bool) (w : window) :
  exists w', run_events (es ++ [(t, f)]) w = (Ret tt, w') /\
    (f = true -> hd_error (history w') = Some t /\ ltext (partial_label w') = "") /\
    (f = false -> ltext (partial_label w') = t).
Proof. apply run_events_last. Qed.

(** X6. When the audio stream fails, the callbacks the recognition thread
    made, run on the window in order, leave ["Audio Error: ..."] as the
    newest history entry and an empty partial label. *)
Theorem stream_error_shown {S} (e : engine S) (s0 : S) (pre post : list tick) (msg : string)
  (w : window) :
  (forall m, ~ In (StreamFail m) pre) ->
  exists w',
    run_events (emitted (recognition_loop e s0 Opened (pre ++ StreamFail msg :: post))) w
      = (Ret tt, w') /\
    hd_error (history w') = Some ("Audio Error: " ++ msg) /\ ltext (partial_label w') = "".
Proof.
  intros H. unfold recognition_loop. rewrite (listen_fail e _ pre post msg H). cbn [emitted].
  destruct (run_events_last (emitted (listen e (mkLoop s0 [] [] []) pre))
              ("Audio Error: " ++ msg) true w) as [w' [H1 [H2 _]]].
  exists w'. split; [exact H1|]. apply H2. reflexivity.
Qed.

Lemma stream_error_shown_witness :
  exists w',
    run_events (emitted (recognition_loop keyless_engine 0 Opened
                  ([Arrive "a"; Poll] ++ StreamFail "device lost" :: [])))
      (snd (init_window 1920 1080)) = (Ret tt, w') /\
    hd_error (history w') = Some ("Audio Error: " ++ "device lost") /\
    ltext (partial_label w') = "".
Proof.
  apply stream_error_shown. intros m [H|[H|[]]]; discriminate.
Defined.

(** *** [_apply_visual_settings] when the colour cache covers the labels *)

Lemma style_labels_full (i : nat) (cc : list string) (f : string * Z) (wr : option Z)
  (ls : list label) :
  i + List.length ls <= List.length cc ->
  snd (style_labels i cc f wr ls) = None /\
  List.length (fst (style_labels i cc f wr ls)) = List.length ls /\
  forall j l, nth_error (fst (style_labels i cc f wr ls)) j = Some l ->
    exists l0, nth_error ls j = Some l0 /\ l = styled_label f wr (nth (i + j) cc "") l0.
Proof.
  revert i. induction ls as [|l ls IH]; intros i Hl.
  - split; [reflexivity|split; [reflexivity|]]. intros [|j] l' H; discriminate.
  - cbn [style_labels]. cbn in Hl.
    destruct (nth_error cc i) as [fg|] eqn:Hn; [|apply nth_error_None in Hn; lia].
    destruct (IH (S i) ltac:(lia)) as [IH1 [IH2 IH3]].
    destruct (style_labels (S i) cc f wr ls) as [rest e]. cbn in IH1, IH2, IH3 |- *.
    split; [exact IH1|split; [rewrite IH2; reflexivity|]].
    intros [|j] l' H; cbn in H.
    + inversion H; subst. exists l. split; [reflexivity|].
      rewrite Nat.add_0_r. apply nth_error_nth with (d := "") in Hn. rewrite Hn.
      destruct wr; reflexivity.
    + destruct (IH3 j l' H) as [l0 [H1 H2]]. exists l0. split; [exact H1|].
      rewrite H2, Nat.add_succ_r. reflexivity.
Qed.

Lemma apply_visual_result (w : window) :
  List.length (history_labels w) <= List.length (color_cache w) ->
  let s := settings_of w in
  let f := (font_family s, font_size s) in
  let r' := fst (place_of s (set_fullscreen (fullscreen s) (root w))) in
  let ww := snd (place_of s (set_fullscreen (fullscreen s) (root w))) in
  exists w', apply_visual_settings w = (Ret tt, w') /\
    settings_of w' = s /\ history w' = history w /\ color_cache w' = color_cache w /\
    root w' = r' /\
    partial_label w' = mkLabel (ltext (partial_label w)) f (text_color s) (ww - 50) /\
    List.length (history_labels w') = List.length (history_labels w) /\
    forall j l, nth_error (history_labels w') j = Some l ->
      exists l0, nth_error (history_labels w) j = Some l0 /\
        l = mkLabel (ltext l0) f (nth j (color_cache w) "") (ww - 50).
Proof.
  intros Hl. cbv zeta.
  rewrite apply_visual_settings_spec. unfold visual_of.
  set (s := settings_of w). set (f := (font_family s, font_size s)).
  destruct (style_labels_full 0 (color_cache w) f None (history_labels w) Hl)
    as [E1 [L1 N1]].
  destruct (style_labels 0 (color_cache w) f None (history_labels w)) as [ls1 e1].
  cbn in E1, L1, N1. subst e1.
  destruct (place_of s (set_fullscreen (fullscreen s) (root w))) as [r2 w2] eqn:Hp.
  cbn [fst snd].
  destruct (style_labels_full 0 (color_cache w) f (Some (w2 - 50)%Z) ls1 ltac:(lia))
    as [E2 [L2 N2]].
  destruct (style_labels 0 (color_cache w) f (Some (w2 - 50)%Z) ls1) as [ls2 e2].
  cbn in E2, L2, N2. subst e2.
  eexists. split; [reflexivity|]. cbn.
  split; [reflexivity|split; [reflexivity|split; [reflexivity|split; [reflexivity|]]]].
  split; [reflexivity|]. split; [lia|].
  intros j l H. destruct (N2 j l H) as [l1 [H1 ->]]. destruct (N1 j l1 H1) as [l0 [H0 ->]].
  exists l0. split; [exact H0|]. reflexivity.
Qed.

(** X16. When the colour cache has an entry for every history label,
    [_apply_visual_settings] succeeds and touches only labels and root:
    history label [j] keeps its text and gets the chosen font, colour
    [color_cache[j]] and the wrap width; the partial label gets the font,
    the text colour and the same wrap width, [window_width - 50]. *)
Theorem apply_visual_settings_styles (w : window) :
  List.length (history_labels w) <= List.length (color_cache w) ->
  let s := settings_of w in
  let f := (font_family s, font_size s) in
  let ww := snd (place_of s (set_fullscreen (fullscreen s) (root w))) in
  exists w', apply_visual_settings w = (Ret tt, w') /\
    settings_of w' = s /\ history w' = history w /\ color_cache w' = color_cache w /\
    partial_label w' = mkLabel (ltext (partial_label w)) f (text_color s) (ww - 50) /\
    List.length (history_labels w') = List.length (history_labels w) /\
    forall j l, nth_error (history_labels w') j = Some l ->
      exists l0, nth_error (history_labels w) j = Some l0 /\
        l = mkLabel (ltext l0) f (nth j (color_cache w) "") (ww - 50).
Proof.
  intros Hl. destruct (apply_visual_result w Hl) as [w' [H [A [B [C [_ [E [F G]]]]]]]].
  exists w'. repeat split; assumption.
Qed.

Lemma apply_visual_settings_styles_witness :
  let w := snd (init_window 1280 720) in
  List.length (history_labels w) <= List.length (color_cache w) /\
  exists w', apply_visual_settings w = (Ret tt, w') /\
    settings_of w' = settings_of w /\ history w' = history w /\ color_cache w' = color_cache w /\
    partial_label w' = mkLabel (ltext (partial_label w))
                         (font_family (settings_of w), font_size (settings_of w))
                         (text_color (settings_of w))
                         (snd (place_of (settings_of w)
                                 (set_fullscreen (fullscreen (settings_of w)) (root w))) - 50) /\
    List.length (history_labels w') = List.length (history_labels w) /\
    forall j l, nth_error (history_labels w') j = Some l ->
      exists l0, nth_error (history_labels w) j = Some l0 /\
        l = mkLabel (ltext l0) (font_family (settings_of w), font_size (settings_of w))
              (nth j (color_cache w) "")
              (snd (place_of (settings_of w)
                      (set_fullscreen (fullscreen (settings_of w)) (root w))) - 50).
Proof.
  intros w. assert (H : List.length (history_labels w) <= List.length (color_cache w))
    by (vm_compute; lia).
  split; [exact H|]. exact (apply_visual_settings_styles w H).
Defined.

Lemma apply_visual_layout (w : window) :
  List.length (history_labels w) <= List.length (color_cache w) ->
  let s := settings_of w in
  let p := place_of s (set_fullscreen (fullscreen s) (root w)) in
  exists w', apply_visual_settings w = (Ret tt, w') /\ root w' = fst p /\
    wrapped_to (snd p - 50) w'.
Proof.
  intros Hl. destruct (apply_visual_result w Hl) as [w' [H [_ [_ [_ [D [E [_ G]]]]]]]].
  exists w'. split; [exact H|]. split; [exact D|]. split; [rewrite E; reflexivity|].
  apply Forall_forall. intros l Hin.
  destruct (In_nth_error _ _ Hin) as [j Hj]. destruct (G j l Hj) as [l0 [_ ->]].
  reflexivity.
Qed.

(** X13. Floating placement ([fullscreen] off, position neither ["top"] nor
    ["bottom"]): no geometry request is made, the [-fullscreen] attribute
    is cleared, and the labels wrap at the rendered window width minus 50,
    or at 750 while the window has not been rendered ([winfo_width() <= 1]). *)
Theorem floating_layout (w : window) :
  fullscreen (settings_of w) = false ->
  position (settings_of w) <> "top" -> position (settings_of w) <> "bottom" ->
  List.length (history_labels w) <= List.length (color_cache w) ->
  exists w', apply_visual_settings w = (Ret tt, w') /\
    root w' = set_fullscreen false (root w) /\
    wrapped_to ((if (win_width (root w) <=? 1)%Z then 800 else win_width (root w)) - 50) w'.
Proof.
  intros Hf Ht Hb Hl. destruct (apply_visual_layout w Hl) as [w' [H [R W]]].
  exists w'. split; [exact H|].
  unfold place_of in R, W. rewrite Hf in R, W.
  apply String.eqb_neq in Ht, Hb. rewrite Ht, Hb in R, W. cbn in R, W.
  split; [exact R|]. destruct (root w); exact W.
Qed.

Lemma floating_layout_witness :
  let w := with_root (render (root (snd (init_window 1920 1080))))
             (snd (init_window 1920 1080)) in
  fullscreen (settings_of w) = false /\
  position (settings_of w) <> "top" /\ position (settings_of w) <> "bottom" /\
  List.length (history_labels w) <= List.length (color_cache w) /\
  exists w', apply_visual_settings w = (Ret tt, w') /\
    root w' = set_fullscreen false (root w) /\
    wrapped_to ((if (win_width (root w) <=? 1)%Z then 800 else win_width (root w)) - 50) w'.
Proof.
  intros w.
  assert (H1 : fullscreen (settings_of w) = false) by (vm_compute; reflexivity).
  assert (H2 : position (settings_of w) <> "top") by (vm_compute; discriminate).
  assert (H3 : position (settings_of w) <> "bottom") by (vm_compute; discriminate).
  assert (H4 : List.length (history_labels w) <= List.length (color_cache w))
    by (vm_compute; lia).
  repeat (split; [assumption|]). exact (floating_layout w H1 H2 H3 H4).
Defined.

(** X14. Full-screen mode, whatever the position: the [-fullscreen]
    attribute is set, no geometry request is made, and the labels wrap at
    the screen width minus 50. *)
Theorem fullscreen_layout (w : window) :
  fullscreen (settings_of w) = true ->
  List.length (history_labels w) <= List.length (color_cache w) ->
  exists w', apply_visual_settings w = (Ret tt, w') /\
    root w' = set_fullscreen true (root w) /\
    wrapped_to (screen_width (root w) - 50) w'.
Proof.
  intros Hf Hl. destruct (apply_visual_layout w Hl) as [w' [H [R W]]].
  exists w'. split; [exact H|].
  unfold place_of in R, W. rewrite Hf in R, W. cbn in R, W.
  split; [exact R|]. destruct (root w); exact W.
Qed.

Lemma fullscreen_layout_witness :
  let w := with_settings (mkSettings "Helvetica" 24 "#FFFFFF" "bottom" true)
             (snd (init_window 1366 768)) in
  fullscreen (settings_of w) = true /\
  List.length (history_labels w) <= List.length (color_cache w) /\
  exists w', apply_visual_settings w = (Ret tt, w') /\
    root w' = set_fullscreen true (root w) /\
    wrapped_to (screen_width (root w) - 50) w'.
Proof.
  intros w.
  assert (H1 : fullscreen (settings_of w) = true) by reflexivity.
  assert (H2 : List.length (history_labels w) <= List.length (color_cache w))
    by (vm_compute; lia).
  split; [exact H1|]. split; [exact H2|]. exact (fullscreen_layout w H1 H2).
Defined.

(** X15. Docked placement on a screen of any size [sw x sh], [fullscreen]
    off: ["top"] requests [sw x 250 + 0 + 0], ["bottom"] requests
    [sw x 250 + 0 + (sh - 290)] (250 for the window, 40 for a taskbar);
    the [-fullscreen] attribute is cleared and the labels wrap at [sw - 50]. *)
Theorem docked_layout_any_screen (w : window) :
  fullscreen (settings_of w) = false ->
  List.length (history_labels w) <= List.length (color_cache w) ->
  let sw := screen_width (root w) in
  let sh := screen_height (root w) in
  (position (settings_of w) = "top" ->
   exists w', apply_visual_settings w = (Ret tt, w') /\
     root_geometry (root w') = mkGeometry sw 250 (Some (0%Z, 0%Z)) /\
     fullscreen_attr (root w') = false /\ wrapped_to (sw - 50) w') /\
  (position (settings_of w) = "bottom" ->
   exists w', apply_visual_settings w = (Ret tt, w') /\
     root_geometry (root w') = mkGeometry sw 250 (Some (0%Z, sh - 290)%Z) /\
     fullscreen_attr (root w') = false /\ wrapped_to (sw - 50) w').
Proof.
  intros Hf Hl sw sh. destruct (apply_visual_layout w Hl) as [w' [H [R W]]].
  unfold place_of in R, W. rewrite Hf in R, W. cbn [negb] in R, W.
  split; intros Hp; rewrite Hp in R, W; cbn in R, W; exists w'; split; try exact H;
    rewrite R; subst sw sh; destruct (root w); cbn in W |- *;
    (split; [f_equal; f_equal; f_equal; lia|split; [reflexivity|exact W]]).
Qed.

Lemma docked_layout_any_screen_witness :
  let w := with_settings (mkSettings "Helvetica" 24 "#FFFFFF" "bottom" false)
             (snd (init_window 2560 1440)) in
  fullscreen (settings_of w) = false /\
  List.length (history_labels w) <= List.length (color_cache w) /\
  (position (settings_of w) = "bottom" ->
   exists w', apply_visual_settings w = (Ret tt, w') /\
     root_geometry (root w') = mkGeometry 2560 250 (Some (0%Z, 1150%Z)) /\
     fullscreen_attr (root w') = false /\ wrapped_to (2560 - 50) w').
Proof.
  intros w.
  assert (H1 : fullscreen (settings_of w) = false) by reflexivity.
  assert (H2 : List.length (history_labels w) <= List.length (color_cache w))
    by (vm_compute; lia).
  split; [exact H1|]. split; [exact H2|].
  exact (proj2 (docked_layout_any_screen w H1 H2)).
Defined.

(** *** The colour cache and a failed settings change *)

Lemma fade_list_len (r g b : Z) (idx : list nat) :
  (fst (fade_list r g b idx) = Ret tt -> List.length (snd (fade_list r g b idx)) = List.length idx) /\
  (forall e, fst (fade_list r g b idx) = Raise e ->
     List.length (snd (fade_list r g b idx)) < List.length idx).
Proof.
  induction idx as [|i idx [IH1 IH2]]; cbn [fade_list]; [split; [reflexivity|discriminate]|].
  destruct (fade_entry r g b i) as [c|e]; cbn.
  - destruct (fade_list r g b idx) as [o l]. cbn in IH1, IH2 |- *.
    split; [intros H; rewrite (IH1 H); reflexivity|intros e H; specialize (IH2 e H); lia].
  - split; [discriminate|intros; lia].
Qed.

Lemma color_cache_of_len (c : string) :
  (fst (color_cache_of c) = Ret tt -> List.length (snd (color_cache_of c)) = MAX_HISTORY) /\
  (forall e, fst (color_cache_of c) = Raise e ->
     List.length (snd (color_cache_of c)) < MAX_HISTORY).
Proof.
  unfold color_cache_of.
  destruct (negb (py_startswith c "#")).
  - split; [intros _; apply repeat_length|intros e H; discriminate].
  - destruct (py_int16 (py_slice c 1 3)) as [r|e]; [|split; [discriminate|intros; cbn; unfold MAX_HISTORY; lia]].
    destruct (py_int16 (py_slice c 3 5)) as [g|e]; [|split; [discriminate|intros; cbn; unfold MAX_HISTORY; lia]].
    destruct (py_int16 (py_slice c 5 7)) as [b|e]; [|split; [discriminate|intros; cbn; unfold MAX_HISTORY; lia]].
    destruct (fade_list_len r g b (seq 0 MAX_HISTORY)) as [H1 H2].
    rewrite length_seq in H1, H2. split; assumption.
Qed.

Lemma style_labels_short (i : nat) (cc : list string) (f : string * Z) (wr : option Z)
  (ls : list label) :
  i <= List.length cc -> List.length cc < i + List.length ls ->
  snd (style_labels i cc f wr ls) = Some IndexError.
Proof.
  revert i. induction ls as [|l ls IH]; intros i Hi Hl; cbn in Hl; [lia|].
  cbn [style_labels]. destruct (nth_error cc i) as [fg|] eqn:Hn; [|reflexivity].
  assert (i < List.length cc) by (apply nth_error_Some; rewrite Hn; discriminate).
  specialize (IH (S i) ltac:(lia) ltac:(lia)).
  destruct (style_labels (S i) cc f wr ls) as [rest e]. cbn in IH |- *. exact IH.
Qed.

(** X19. When recomputing the colour cache succeeds, it holds exactly
    [MAX_HISTORY] = 10 colours, and nothing but the cache has changed; a
    colour that does not start with ["#"] is repeated unfaded. *)
Theorem update_color_cache_length (w w' : window) :
  update_color_cache w = (Ret tt, w') ->
  List.length (color_cache w') = MAX_HISTORY /\ w' = with_color_cache (color_cache w') w /\
  (py_startswith (text_color (settings_of w)) "#" = false ->
   color_cache w' = repeat (text_color (settings_of w)) MAX_HISTORY).
Proof.
  rewrite update_color_cache_spec. intros H. inversion H as [[Ho Hw]].
  destruct (color_cache_of_len (text_color (settings_of w))) as [L _].
  split; [cbn; exact (L Ho)|split; [destruct w; reflexivity|]].
  intros Hs. cbn. unfold color_cache_of. rewrite Hs. reflexivity.
Qed.

Lemma update_color_cache_length_witness :
  let w := with_settings (mkSettings "Helvetica" 24 "yellow" "floating" false)
             (snd (init_window 1920 1080)) in
  update_color_cache w = (Ret tt, snd (update_color_cache w)) /\
  List.length (color_cache (snd (update_color_cache w))) = MAX_HISTORY /\
  snd (update_color_cache w) = with_color_cache (color_cache (snd (update_color_cache w))) w /\
  (py_startswith (text_color (settings_of w)) "#" = false ->
   color_cache (snd (update_color_cache w)) = repeat (text_color (settings_of w)) MAX_HISTORY).
Proof.
  intros w. assert (H : update_color_cache w = (Ret tt, snd (update_color_cache w)))
    by (vm_compute; reflexivity).
  split; [exact H|]. exact (update_color_cache_length w _ H).
Defined.

(** X20. On a window with its [MAX_HISTORY] history labels,
    [on_settings_changed] raises exactly when recomputing the colour cache
    for the new text colour raises: [_apply_visual_settings] never raises
    after a successful recomputation. *)
Theorem settings_change_raises_iff (s : settings) (w : window) :
  List.length (history_labels w) = MAX_HISTORY ->
  fst (on_settings_changed s w) = fst (update_color_cache (with_settings s w)).
Proof.
  intros Hl. rewrite on_settings_changed_spec, update_color_cache_spec.
  cbn [settings_of with_settings fst].
  destruct (color_cache_of_len (text_color s)) as [L _].
  destruct (fst (color_cache_of (text_color s))) as [[]|e] eqn:Ho; [|reflexivity].
  destruct (apply_visual_result
              (with_color_cache (snd (color_cache_of (text_color s))) (with_settings s w)))
    as [w' [H _]].
  - cbn. rewrite Hl, (L eq_refl). lia.
  - rewrite H. reflexivity.
Qed.

Lemma settings_change_raises_iff_witness :
  let w := snd (init_window 1920 1080) in
  List.length (history_labels w) = MAX_HISTORY /\
  fst (on_settings_changed (mkSettings "Helvetica" 24 "#GG0000" "floating" false) w) =
  fst (update_color_cache
         (with_settings (mkSettings "Helvetica" 24 "#GG0000" "floating" false) w)).
Proof.
  intros w. assert (H : List.length (history_labels w) = MAX_HISTORY)
    by (vm_compute; reflexivity).
  split; [exact H|]. exact (settings_change_raises_iff _ w H).
Defined.

(** X17. A failed settings change leaves the window half updated: the new
    settings are stored, the colour cache is cut short (fewer than 10
    colours), history, labels and root are untouched, and every later
    [_apply_visual_settings] raises [IndexError] until a colour parses. *)
Theorem bad_color_leaves_state (s : settings) (w : window) (e : py_exc) :
  fst (update_color_cache (with_settings s w)) = Raise e ->
  List.length (history_labels w) = MAX_HISTORY ->
  exists w', on_settings_changed s w = (Raise e, w') /\
    settings_of w' = s /\ history w' = history w /\ history_labels w' = history_labels w /\
    partial_label w' = partial_label w /\ root w' = root w /\
    List.length (color_cache w') < MAX_HISTORY /\
    fst (apply_visual_settings w') = Raise IndexError.
Proof.
  intros He Hl. rewrite update_color_cache_spec in He. cbn [settings_of with_settings fst] in He.
  rewrite on_settings_changed_spec. cbv zeta. rewrite He.
  destruct (color_cache_of_len (text_color s)) as [_ L].
  specialize (L e He).
  eexists. split; [reflexivity|].
  cbn [settings_of history history_labels partial_label root color_cache with_color_cache
       with_settings].
  repeat (split; [reflexivity|]). split; [exact L|].
  rewrite apply_visual_settings_spec. unfold visual_of.
  cbn [settings_of history history_labels partial_label root color_cache with_color_cache
       with_settings].
  match goal with |- context [style_labels 0 ?cc ?f None ?ls] =>
    pose proof (style_labels_short 0 cc f None ls ltac:(lia) ltac:(cbn; lia)) as Hs;
    destruct (style_labels 0 cc f None ls) as [ls1 e1]
  end.
  cbn in Hs. subst e1. reflexivity.
Qed.

Lemma bad_color_leaves_state_witness :
  let s := mkSettings "Helvetica" 24 "#GG0000" "floating" false in
  let w := snd (init_window 1920 1080) in
  fst (update_color_cache (with_settings s w)) = Raise ValueError /\
  List.length (history_labels w) = MAX_HISTORY /\
  exists w', on_settings_changed s w = (Raise ValueError, w') /\
    settings_of w' = s /\ history w' = history w /\ history_labels w' = history_labels w /\
    partial_label w' = partial_label w /\ root w' = root w /\
    List.length (color_cache w') < MAX_HISTORY /\
    fst (apply_visual_settings w') = Raise IndexError.
Proof.
  intros s w.
  assert (H1 : fst (update_color_cache (with_settings s w)) = Raise ValueError)
    by (vm_compute; reflexivity).
  assert (H2 : List.length (history_labels w) = MAX_HISTORY) by (vm_compute; reflexivity).
  split; [exact H1|]. split; [exact H2|]. exact (bad_color_leaves_state s w ValueError H1 H2).
Defined.

(** *** Hex formatting and parsing *)

Lemma format_parse_check_ok : format_parse_check = true.
Proof. vm_compute. reflexivity. Qed.

Lemma format_02x_digits (n : Z) :
  (0 <= n <= 255)%Z ->
  exists a b va vb, format_02x n = String a (String b EmptyString) /\
    hexval a = Some va /\ hexval b = Some vb /\ (va * 16 + vb = n)%Z.
Proof.
  intros Hn. pose proof format_parse_check_ok as H. unfold format_parse_check in H.
  rewrite forallb_forall in H.
  assert (Hin : In n (map Z.of_nat (seq 0 256))).
  { replace n with (Z.of_nat (Z.to_nat n)) by lia. apply in_map, in_seq. lia. }
  specialize (H n Hin).
  rewrite <- (string_of_list_ascii_of_string (format_02x n)).
  destruct (list_ascii_of_string (format_02x n)) as [|a [|b [|c l]]]; try discriminate.
  destruct (hexval a) as [va|] eqn:Ha; [|discriminate].
  destruct (hexval b) as [vb|] eqn:Hb; [|discriminate].
  apply Z.eqb_eq in H. exists a, b, va, vb. repeat split; assumption.
Qed.

(** X21. [int(f"{n:02x}", 16) = n] for every byte value [n]: formatting a
    colour component and parsing it back is the identity, always on two
    hexadecimal digits. *)
Theorem format_02x_round_trip (n : Z) :
  (0 <= n <= 255)%Z ->
  String.length (format_02x n) = 2 /\ py_int16 (format_02x n) = Ret n.
Proof.
  intros Hn. destruct (format_02x_digits n Hn) as [a [b [va [vb [H [Ha [Hb Hv]]]]]]].
  rewrite H. split; [reflexivity|]. rewrite (hex_pair a b va vb Ha Hb), Hv. reflexivity.
Qed.

Lemma format_02x_round_trip_witness :
  (0 <= 171 <= 255)%Z /\ String.length (format_02x 171) = 2 /\ py_int16 (format_02x 171) = Ret 171%Z.
Proof. split; [lia|]. apply format_02x_round_trip. lia. Defined.

Lemma scale_range (c : Z) (i : nat) :
  (0 <= c <= 255)%Z -> i < MAX_HISTORY -> (0 <= spec_scale c i <= 255)%Z.
Proof.
  intros Hc Hi.
  assert (H : scale_range_check = true) by (vm_compute; reflexivity).
  unfold scale_range_check in H. rewrite forallb_forall in H.
  assert (Hin : In c (map Z.of_nat (seq 0 256))).
  { replace c with (Z.of_nat (Z.to_nat c)) by lia. apply in_map, in_seq. lia. }
  specialize (H c Hin). rewrite forallb_forall in H.
  specialize (H i ltac:(apply in_seq; lia)).
  apply andb_true_iff in H. destruct H as [H1 H2]. apply Z.leb_le in H1, H2. lia.
Qed.

(** X22. Fading keeps colours well formed: every colour in the fade table
    of an ["#rrggbb"] base colour is itself an ["#rrggbb"] colour, whose own
    fade table is computed without error. *)
Theorem faded_colors_reparse (c1 c2 c3 c4 c5 c6 : ascii) (v1 v2 v3 v4 v5 v6 : Z) :
  hexval c1 = Some v1 -> hexval c2 = Some v2 -> hexval c3 = Some v3 ->
  hexval c4 = Some v4 -> hexval c5 = Some v5 -> hexval c6 = Some v6 ->
  forall x, In x (snd (color_cache_of (hex_color c1 c2 c3 c4 c5 c6))) ->
  (exists d1 d2 d3 d4 d5 d6 u1 u2 u3 u4 u5 u6,
     x = hex_color d1 d2 d3 d4 d5 d6 /\
     hexval d1 = Some u1 /\ hexval d2 = Some u2 /\ hexval d3 = Some u3 /\
     hexval d4 = Some u4 /\ hexval d5 = Some u5 /\ hexval d6 = Some u6) /\
  fst (color_cache_of x) = Ret tt.
Proof.
  intros H1 H2 H3 H4 H5 H6 x Hx.
  rewrite (color_cache_of_hex c1 c2 c3 c4 c5 c6 v1 v2 v3 v4 v5 v6 H1 H2 H3 H4 H5 H6) in Hx.
  cbn [snd] in Hx. apply in_map_iff in Hx. destruct Hx as [i [Hx Hi]].
  apply in_seq in Hi.
  apply hexval_range in H1, H2, H3, H4, H5, H6.
  destruct (format_02x_digits (spec_scale (v1 * 16 + v2) i)
              ltac:(apply scale_range; [lia|lia]))
    as [d1 [d2 [u1 [u2 [E1 [F1 [F2 _]]]]]]].
  destruct (format_02x_digits (spec_scale (v3 * 16 + v4) i)
              ltac:(apply scale_range; [lia|lia]))
    as [d3 [d4 [u3 [u4 [E2 [F3 [F4 _]]]]]]].
  destruct (format_02x_digits (spec_scale (v5 * 16 + v6) i)
              ltac:(apply scale_range; [lia|lia]))
    as [d5 [d6 [u5 [u6 [E3 [F5 [F6 _]]]]]]].
  assert (Ex : x = hex_color d1 d2 d3 d4 d5 d6).
  { rewrite <- Hx. unfold spec_fade_entry. rewrite E1, E2, E3. reflexivity. }
  split.
  - exists d1, d2, d3, d4, d5, d6, u1, u2, u3, u4, u5, u6. repeat split; assumption.
  - rewrite Ex, (color_cache_of_hex d1 d2 d3 d4 d5 d6 u1 u2 u3 u4 u5 u6 F1 F2 F3 F4 F5 F6).
    reflexivity.
Qed.

Lemma faded_colors_reparse_witness :
  hexval "F" = Some 15%Z /\
  (exists d1 d2 d3 d4 d5 d6 u1 u2 u3 u4 u5 u6,
     "#999999" = hex_color d1 d2 d3 d4 d5 d6 /\
     hexval d1 = Some u1 /\ hexval d2 = Some u2 /\ hexval d3 = Some u3 /\
     hexval d4 = Some u4 /\ hexval d5 = Some u5 /\ hexval d6 = Some u6) /\
  fst (color_cache_of "#999999") = Ret tt.
Proof.
  assert (H : hexval "F" = Some 15%Z) by reflexivity.
  split; [exact H|].
  apply (faded_colors_reparse "F" "F" "F" "F" "F" "F" 15 15 15 15 15 15 H H H H H H).
  vm_compute. right; right; right; right; right; right; left. reflexivity.
Defined.

(** *** [CaptionWindow.__init__] *)

(** X18. On a screen of any size, [__init__] completes without exception:
    default settings, ten empty history entries shown by ten empty labels,
    ten fade colours, the [800x200] geometry request untouched and not full
    screen, and every label wrapping at [800 - 50 = 750]. *)
Theorem init_window_any_screen (sw sh : Z) :
  exists w, init_window sw sh = (Ret tt, w) /\
    settings_of w = default_settings /\ history w = repeat "" MAX_HISTORY /\
    List.length (color_cache w) = MAX_HISTORY /\
    List.length (history_labels w) = MAX_HISTORY /\
    Forall (fun l => ltext l = "") (history_labels w) /\
    root w = mkRoot sw sh 1 false (mkGeometry 800 200 None) /\
    wrapped_to 750 w.
Proof.
  rewrite init_window_eq. eexists. split; [reflexivity|].
  cbn [settings_of history color_cache history_labels root partial_label].
  split; [reflexivity|split; [reflexivity|]].
  split; [vm_compute; reflexivity|]. split; [vm_compute; reflexivity|].
  split; [vm_compute; repeat constructor|]. split; [reflexivity|].
  split; [reflexivity|vm_compute; repeat constructor].
Qed.


